(** * Pronunciation-analysis backend: workflow, statistics and AI-result parsing

    A shallow embedding of
    - [pronunciation.service.ts]  (class [PronunciationService]),
    - [gemini.service.ts]         (class [GeminiService]),
    - [pinata.service.ts]         (class [PinataService]),
    - [elevenlabs.service.ts]     (class [ElevenLabsService]),
    - [tts.controller.ts]         (class [TtsController]),
    - the [PronunciationAttempt] and [User] entities,
    followed by the properties of the workflow proved about it.

    Conventions.
    - A JavaScript [number] is a rational or [NaN], and arithmetic on numbers
      is exact: infinities and the rounding of IEEE double precision are
      outside the model.  Which of two neighbouring decimal values a
      computation in double precision stores is therefore not stated here.
    - A JavaScript string is a [string] that holds its UTF-8 encoding, the
      way the source files write their literals; its length and its cuts are
      counted in UTF-16 code units.
    - An [async] method is a function on the state of the two tables that
      returns either the thrown value or the result.
    - Every awaited call to a collaborator that lives outside the process (the
      database behind the two repositories, the pinning service, the Gemini
      endpoint) can be rejected.  What each such call answers during one run
      is collected in the record [Env]; every helper receives, as its leading
      arguments, the answers of the calls it awaits.  A call is rejected with
      an [Error] object or with another value that is neither [null] nor
      [undefined].
    - A repository returns the values that were written: the conversions of
      the column types (the two [decimal(3,1)] columns) are outside the model.
    - A property of a scenario (the upload fails, the analysis fails, ...)
      names, as hypotheses, the answers that make up the scenario: the calls
      before the failing one are served, and so is the write of the failure
      handler.  What happens when that write is rejected as well is stated
      separately ([handler_write_rejected]). *)

From Stdlib Require Import QArith Qround Qabs Lqa ZArith Lia Ascii String.
From stdpp Require Import gmap strings list sorting.

Set Warnings "-register-all".

Local Open Scope Z_scope.
Local Open Scope string_scope.

(** ** JavaScript values *)

Module Js.

(** A JavaScript number. *)
Inductive number : Type :=
| Num (q : Q)
| NaN.

(** Values thrown by [throw] or given by a rejected call: an [Error] object
    with its [message], or another value, given by its string form
    [String(v)].  The other values are those that can be asked for a property
    and have no [message]; [null] and [undefined], on which reading
    [error.stack] in a [catch] block throws in its turn, are not among them. *)
Inductive thrown : Type :=
| JsError (message : string)
| JsValue (text : string).

(** [error instanceof Error ? error.message : String(error)] *)
Definition error_text (e : thrown) : string :=
  match e with
  | JsError m => m
  | JsValue t => t
  end.

(** The text that [error.message] takes inside a template literal. *)
Definition message_in_template (e : thrown) : string :=
  match e with
  | JsError m => m
  | JsValue _ => "undefined"
  end.

(** What [JSON.parse] can return. *)
Inductive json : Type :=
| JNull
| JBool (b : bool)
| JNumber (q : Q)
| JString (s : string)
| JArray (items : list json)
| JObject (fields : list (string * json)).

(** The built-ins of the JavaScript runtime that the code calls and whose
    source is not part of the repository. *)
Record Runtime : Type := {
  (** [JSON.parse]; [None] when it throws a [SyntaxError]. *)
  JSON_parse : string -> option json;
  (** [Number(s)] on a string. *)
  StringToNumber : string -> number;
  (** [String(a)] on an array. *)
  ArrayToString : list json -> string
}.

Definition is_empty (s : string) : bool :=
  match s with
  | EmptyString => true
  | String _ _ => false
  end.

(** The number of UTF-16 code units of the character whose encoding starts
    with the byte [c]: one, or two for a character outside the basic plane; a
    continuation byte counts for nothing. *)
Definition code_units (c : ascii) : nat :=
  let n := Ascii.nat_of_ascii c in
  if (n <? 128)%nat then 1%nat
  else if (n <? 192)%nat then 0%nat
  else if (n <? 240)%nat then 1%nat
  else 2%nat.

(** [s.length] *)
Fixpoint String_length (s : string) : nat :=
  match s with
  | EmptyString => 0%nat
  | String c rest => (code_units c + String_length rest)%nat
  end.

(** The first code unit, a high surrogate, of the character outside the basic
    plane whose four bytes are [b1] and the first three of [rest].  A lone
    surrogate is written as the three bytes of the generalised encoding. *)
Definition high_surrogate (b1 : ascii) (rest : string) : string :=
  let b2 := match rest with
            | String c _ => N_of_ascii c
            | EmptyString => 128%N
            end in
  let b3 := match rest with
            | String _ (String c _) => N_of_ascii c
            | _ => 128%N
            end in
  let plane := ((N_of_ascii b1 mod 8) * 4 + (b2 / 16) mod 4)%N in
  let w := (((plane - 1) mod 16) * 64 + (b2 mod 16) * 4 + (b3 / 16) mod 4)%N in
  String (ascii_of_N 237)
    (String (ascii_of_N (160 + w / 64))
       (String (ascii_of_N (128 + w mod 64)) EmptyString)).

(** [s.substring(0, n)]: the first [n] code units of [s].  A cut between the
    two code units of one character leaves its high surrogate. *)
Fixpoint substring_from_start (n : nat) (s : string) : string :=
  match s with
  | EmptyString => EmptyString
  | String c rest =>
      match code_units c, n with
      | O, _ => String c (substring_from_start n rest)
      | _, O => EmptyString
      | S O, S m => String c (substring_from_start m rest)
      | S (S _), S O => high_surrogate c rest
      | S (S _), S (S m) => String c (substring_from_start m rest)
      end
  end.

Definition bytes (codes : list nat) : string :=
  fold_right (fun n s => String (Ascii.ascii_of_nat n) s) EmptyString codes.

(** The white space and the line terminators of ECMAScript, which
    [String.prototype.trim] removes: U+0009 to U+000D, U+0020, U+00A0,
    U+1680, U+2000 to U+200A, U+2028, U+2029, U+202F, U+205F, U+3000 and
    U+FEFF, each in its encoding. *)
Definition white_space_characters : list string :=
  map bytes
    [ [9]; [10]; [11]; [12]; [13]; [32]; [194; 160]; [225; 154; 128];
      [226; 128; 128]; [226; 128; 129]; [226; 128; 130]; [226; 128; 131];
      [226; 128; 132]; [226; 128; 133]; [226; 128; 134]; [226; 128; 135];
      [226; 128; 136]; [226; 128; 137]; [226; 128; 138];
      [226; 128; 168]; [226; 128; 169]; [226; 128; 175]; [226; 129; 159];
      [227; 128; 128]; [239; 187; 191] ]%nat.

Definition is_white_space (character : string) : bool :=
  existsb (String.eqb character) white_space_characters.

(** [s.trimStart()] *)
Fixpoint trimStart (s : string) : string :=
  match s with
  | EmptyString => EmptyString
  | String c1 r1 =>
      if is_white_space (String c1 EmptyString) then trimStart r1
      else
        match r1 with
        | EmptyString => s
        | String c2 r2 =>
            if is_white_space (String c1 (String c2 EmptyString))
            then trimStart r2
            else
              match r2 with
              | EmptyString => s
              | String c3 r3 =>
                  if is_white_space
                       (String c1 (String c2 (String c3 EmptyString)))
                  then trimStart r3
                  else s
              end
        end
  end.

(** [s.trimEnd()]: [s] without its longest suffix of white space. *)
Fixpoint trimEnd (s : string) : string :=
  match s with
  | EmptyString => EmptyString
  | String c rest =>
      if is_empty (trimStart s) then EmptyString else String c (trimEnd rest)
  end.

(** [s.trim()] *)
Definition trim (s : string) : string := trimEnd (trimStart s).

Fixpoint assoc (key : string) (fields : list (string * json)) : option json :=
  match fields with
  | [] => None
  | (k, v) :: rest => if String.eqb k key then Some v else assoc key rest
  end.

(** [parsed.key]: [None] when the access throws a [TypeError] (on [null]),
    [Some None] for [undefined]. *)
Definition get_property (parsed : json) (key : string) : option (option json) :=
  match parsed with
  | JNull => None
  | JObject fields => Some (assoc key fields)
  | _ => Some None
  end.

(** Truthiness of a property value. *)
Definition truthy (v : option json) : bool :=
  match v with
  | None => false
  | Some JNull => false
  | Some (JBool b) => b
  | Some (JNumber q) => negb (Qeq_bool q 0)
  | Some (JString s) => negb (is_empty s)
  | Some (JArray _) => true
  | Some (JObject _) => true
  end.

(** [v || 0] *)
Definition or_zero (v : option json) : json :=
  match v with
  | Some x => if truthy v then x else JNumber 0
  | None => JNumber 0
  end.

(** [ToNumber]; [None] when the conversion throws a [TypeError] (an object
    whose own [toString] property hides the inherited method). *)
Definition ToNumber (rt : Runtime) (v : json) : option number :=
  match v with
  | JNull => Some (Num 0)
  | JBool b => Some (Num (if b then 1 else 0))
  | JNumber q => Some (Num q)
  | JString s => Some (StringToNumber rt s)
  | JArray items => Some (StringToNumber rt (ArrayToString rt items))
  | JObject fields =>
      match assoc "toString" fields with
      | Some _ => None
      | None => Some NaN
      end
  end.

Definition Math_min (a b : number) : number :=
  match a, b with
  | Num x, Num y => Num (if Qle_bool x y then x else y)
  | _, _ => NaN
  end.

Definition Math_max (a b : number) : number :=
  match a, b with
  | Num x, Num y => Num (if Qle_bool x y then y else x)
  | _, _ => NaN
  end.

(** [Math.round] on a finite number: the nearest integer, ties upwards. *)
Definition Math_round (a : number) : number :=
  match a with
  | Num x => Num (inject_Z (Qfloor (x + (1 # 2))))
  | NaN => NaN
  end.

(** [Math.ceil] *)
Definition Math_ceil (a : number) : number :=
  match a with
  | Num x => Num (inject_Z (Qceiling x))
  | NaN => NaN
  end.

Definition add (a b : number) : number :=
  match a, b with
  | Num x, Num y => Num (x + y)
  | _, _ => NaN
  end.

Definition mul (a b : number) : number :=
  match a, b with
  | Num x, Num y => Num (x * y)
  | _, _ => NaN
  end.

(** Division; a zero divisor (which gives an infinity or [NaN] in JavaScript)
    is mapped to [NaN]. *)
Definition div (a b : number) : number :=
  match a, b with
  | Num x, Num y => if Qeq_bool y 0 then NaN else Num (x / y)
  | _, _ => NaN
  end.

(** [a || 0] on a nullable numeric column. *)
Definition number_or_zero (a : option number) : number :=
  match a with
  | Some (Num x) => if Qeq_bool x 0 then Num 0 else Num x
  | Some NaN => Num 0
  | None => Num 0
  end.

(** The number lies in the closed interval from 0 to 100. *)
Definition in_0_100 (a : number) : Prop :=
  match a with
  | Num x => (0 <= x)%Q /\ (x <= 100)%Q
  | NaN => False
  end.

Definition sub (a b : number) : number :=
  match a, b with
  | Num x, Num y => Num (x - y)
  | _, _ => NaN
  end.

(** [Math.max(...xs, 0)] *)
Definition Math_max_with_zero (xs : list number) : number :=
  fold_right Math_max (Num 0) xs.

End Js.

Import Js.

(** ** Entities *)

(** [AnalysisResult].  The declared field types are erased at run time: the
    two lists and the feedback hold whatever the parsed model answer held. *)
Module Analysis.
Record AnalysisResult : Type := {
  overallScore : number;
  toneAccuracy : number;
  pronunciationErrors : list json;
  suggestions : list json;
  detailedFeedback : json
}.
End Analysis.
Abbreviation AnalysisResult := Analysis.AnalysisResult.

Module Audio.
Record AudioMetadata : Type := {
  duration : number;
  sampleRate : number;
  format : string;
  size : number
}.
End Audio.
Abbreviation AudioMetadata := Audio.AudioMetadata.

Inductive Status : Type := pending | processing | completed | failed.

#[global] Instance Status_eq_dec : EqDecision Status.
Proof. solve_decision. Defined.

(** [PronunciationAttempt]: one row of the table [pronunciation_attempts].
    The column [updatedAt] and the joined [user], which no code reads, are
    left out. *)
Module Attempt.
Record PronunciationAttempt : Type := {
  id : string;
  userId : option string;
  originalText : string;
  audioFileUrl : string;
  ipfsHash : string;
  analysisResult : AnalysisResult;
  audioMetadata : AudioMetadata;
  overallScore : number;
  processingStatus : Status;
  errorMessage : option string;
  createdAt : Z
}.

(** The partial entity handed to [Repository.update]: a property that is
    absent or [undefined] leaves its column as it is. *)
Record Patch : Type := {
  set_audioFileUrl : option string;
  set_ipfsHash : option string;
  set_analysisResult : option AnalysisResult;
  set_overallScore : option number;
  set_processingStatus : option Status;
  set_errorMessage : option string
}.

Definition apply (p : Patch) (row : PronunciationAttempt) : PronunciationAttempt :=
  {| id := id row;
     userId := userId row;
     originalText := originalText row;
     audioFileUrl := default (audioFileUrl row) (set_audioFileUrl p);
     ipfsHash := default (ipfsHash row) (set_ipfsHash p);
     analysisResult := default (analysisResult row) (set_analysisResult p);
     audioMetadata := audioMetadata row;
     overallScore := default (overallScore row) (set_overallScore p);
     processingStatus := default (processingStatus row) (set_processingStatus p);
     errorMessage :=
       match set_errorMessage p with
       | Some m => Some m
       | None => errorMessage row
       end;
     createdAt := createdAt row |}.

(** The entity as the database returns it from an insert: with the generated
    primary key and the creation time. *)
Definition generated (new_id : string) (now : Z) (row : PronunciationAttempt)
    : PronunciationAttempt :=
  {| id := new_id;
     userId := userId row;
     originalText := originalText row;
     audioFileUrl := audioFileUrl row;
     ipfsHash := ipfsHash row;
     analysisResult := analysisResult row;
     audioMetadata := audioMetadata row;
     overallScore := overallScore row;
     processingStatus := processingStatus row;
     errorMessage := errorMessage row;
     createdAt := now |}.
End Attempt.
Abbreviation PronunciationAttempt := Attempt.PronunciationAttempt.

Inductive ChineseLevel : Type := HSK1 | HSK2 | HSK3 | HSK4 | HSK5 | HSK6 | NATIVE.

Definition level_name (l : ChineseLevel) : string :=
  match l with
  | HSK1 => "HSK1" | HSK2 => "HSK2" | HSK3 => "HSK3" | HSK4 => "HSK4"
  | HSK5 => "HSK5" | HSK6 => "HSK6" | NATIVE => "NATIVE"
  end.

(** [User]: one row of the table [users]; [averageScore] is nullable.  The
    columns that no code reads ([preferences], the timestamps) are left out. *)
Module User.
Record User : Type := {
  id : string;
  email : string;
  username : string;
  displayName : option string;
  level : ChineseLevel;
  totalAttempts : Z;
  averageScore : option number;
  isActive : bool
}.

Record Patch : Type := {
  set_totalAttempts : Z;
  set_averageScore : number
}.

Definition apply (p : Patch) (u : User) : User :=
  {| id := id u;
     email := email u;
     username := username u;
     displayName := displayName u;
     level := level u;
     totalAttempts := set_totalAttempts p;
     averageScore := Some (set_averageScore p);
     isActive := isActive u |}.
End User.
Abbreviation User := User.User.

(** ** [GeminiService] *)

Module GeminiService.

(** The part of [GeminiResponse] that the code reads: for every candidate the
    [text] of each of its [content.parts]; [candidates] may be missing. *)
Record GeminiResponse : Type := {
  candidates : option (list (list string))
}.

Record GeminiAnalysisRequest : Type := {
  audioUrl : string;
  originalText : string;
  userLevel : option string
}.

Definition open_brace : ascii := "{"%char.
Definition close_brace : ascii := "}"%char.

(** The suffix of [s] that starts at its first opening brace. *)
Fixpoint from_first_open (s : string) : option string :=
  match s with
  | EmptyString => None
  | String c rest =>
      if Ascii.eqb c open_brace then Some s else from_first_open rest
  end.

(** The longest prefix of [s] that ends with a closing brace. *)
Fixpoint upto_last_close (s : string) : option string :=
  match s with
  | EmptyString => None
  | String c rest =>
      match upto_last_close rest with
      | Some p => Some (String c p)
      | None => if Ascii.eqb c close_brace then Some (String c EmptyString) else None
      end
  end.

(** [analysisText.match(/\{[\s\S]*\}/)]: the leftmost match of a greedy
    pattern, from the first opening brace to the last closing brace after it. *)
Definition match_braces (analysisText : string) : option string :=
  match from_first_open analysisText with
  | Some s => upto_last_close s
  | None => None
  end.

Definition no_detailed_feedback : string := "Không có phản hồi chi tiết.".
Definition cannot_analyse : string := "Không thể phân tích chi tiết".
Definition try_again_clearer : string := "Hãy thử lại với âm thanh rõ ràng hơn".

(** [Math.max(0, Math.min(100, v || 0))]; [None] when [ToNumber] throws. *)
Definition clamp_score (rt : Runtime) (v : option json) : option number :=
  match ToNumber rt (or_zero v) with
  | Some n => Some (Math_max (Num 0) (Math_min (Num 100) n))
  | None => None
  end.

(** [Array.isArray(v) ? v : []] *)
Definition array_or_empty (v : option json) : list json :=
  match v with
  | Some (JArray items) => items
  | _ => []
  end.

(** The object literal built inside the [try] block from the parsed value;
    [None] when evaluating it throws. *)
Definition structured_result (rt : Runtime) (parsed : json) : option AnalysisResult :=
  match get_property parsed "overallScore" with
  | None => None
  | Some overall =>
      match clamp_score rt overall with
      | None => None
      | Some overallScore =>
          match get_property parsed "toneAccuracy" with
          | None => None
          | Some tone =>
              match clamp_score rt tone with
              | None => None
              | Some tone_accuracy =>
                  match get_property parsed "pronunciationErrors",
                        get_property parsed "suggestions",
                        get_property parsed "detailedFeedback" with
                  | Some errors, Some sugg, Some feedback =>
                      Some {| Analysis.overallScore := overallScore;
                              Analysis.toneAccuracy := tone_accuracy;
                              Analysis.pronunciationErrors := array_or_empty errors;
                              Analysis.suggestions := array_or_empty sugg;
                              Analysis.detailedFeedback :=
                                match feedback with
                                | Some f => if truthy feedback then f
                                            else JString no_detailed_feedback
                                | None => JString no_detailed_feedback
                                end |}
                  | _, _, _ => None
                  end
              end
          end
      end
  end.

(** The fallback object built after the [try] block. *)
Definition fallback_result (analysisText : string) : AnalysisResult :=
  {| Analysis.overallScore := Num 75;
     Analysis.toneAccuracy := Num 70;
     Analysis.pronunciationErrors := [JString cannot_analyse];
     Analysis.suggestions := [JString try_again_clearer];
     Analysis.detailedFeedback :=
       JString (substring_from_start 500 analysisText) |}.

(** [parseAnalysisResult] *)
Definition parseAnalysisResult (rt : Runtime) (analysisText : string) : AnalysisResult :=
  match match_braces analysisText with
  | Some jsonMatch =>
      match JSON_parse rt jsonMatch with
      | Some parsed =>
          match structured_result rt parsed with
          | Some result => result
          | None => fallback_result analysisText
          end
      | None => fallback_result analysisText
      end
  | None => fallback_result analysisText
  end.

Definition no_result_message : string := "No analysis result from Gemini".
Definition undefined_read_message : string :=
  "Cannot read properties of undefined (reading 'text')".

(** The body of the [try] block of [analyzePronunciation], given the answer
    [post] of the completion endpoint. *)
Definition analysis_attempt (rt : Runtime) (post : thrown + GeminiResponse)
    : thrown + AnalysisResult :=
  match post with
  | inl e => inl e
  | inr geminiResponse =>
      match candidates geminiResponse with
      | None => inl (JsError no_result_message)
      | Some [] => inl (JsError no_result_message)
      | Some ([] :: _) => inl (JsError undefined_read_message)
      | Some ((analysisText :: _) :: _) => inr (parseAnalysisResult rt analysisText)
      end
  end.

(** [analyzePronunciation]: whatever is thrown inside is caught and thrown
    again as a new [Error]. *)
Definition analyzePronunciation (rt : Runtime) (post : thrown + GeminiResponse)
    (request : GeminiAnalysisRequest) : thrown + AnalysisResult :=
  match analysis_attempt rt post with
  | inr result => inr result
  | inl error => inl (JsError ("AI analysis failed: " +:+ message_in_template error))
  end.

(** The constructor: the key is read from the configuration, an absent one
    counts as empty, and an empty one is refused. *)
Definition constructor (config : string -> option string) : thrown + string :=
  let apiKey := default EmptyString (config "GEMINI_API_KEY") in
  if is_empty apiKey
  then inl (JsError "GEMINI_API_KEY is required but not provided")
  else inr apiKey.

End GeminiService.

(** ** [PinataService] *)

Module PinataService.

Record PinataUploadResponse : Type := {
  IpfsHash : string;
  PinSize : number;
  Timestamp : string
}.

(** [uploadAudio], given the answer [post] of the pinning endpoint. *)
Definition uploadAudio (post : thrown + PinataUploadResponse)
    (audioBuffer : list Z) (metadata : AudioMetadata)
    : thrown + PinataUploadResponse :=
  match post with
  | inr data => inr data
  | inl error => inl (JsError ("IPFS upload failed: " +:+ message_in_template error))
  end.

(** [getPublicUrl] *)
Definition getPublicUrl (gatewayUrl : string) (ipfsHash : string) : string :=
  "https://" +:+ gatewayUrl +:+ "/ipfs/" +:+ ipfsHash.

(** The constructor: both settings are read from the configuration, an
    absent one counts as empty, and an empty one is refused. *)
Module Construction.

Record Service : Type := {
  pinataJWT : string;
  gatewayUrl : string
}.

Definition constructor (config : string -> option string) : thrown + Service :=
  let pinataJWT := default EmptyString (config "PINATA_JWT") in
  let gatewayUrl := default EmptyString (config "PINATA_GATEWAY_URL") in
  if is_empty pinataJWT
  then inl (JsError "PINATA_JWT is required but not provided")
  else if is_empty gatewayUrl
  then inl (JsError "PINATA_GATEWAY_URL is required but not provided")
  else inr {| pinataJWT := pinataJWT; gatewayUrl := gatewayUrl |}.

End Construction.

End PinataService.

(** ** The database and the monad of [async] methods *)

(** The two tables, keyed by primary key. *)
Record Db : Type := {
  attempts : gmap string PronunciationAttempt;
  users : gmap string User
}.

(** The state of a run: the tables, and the states the tables went through
    after every write that was served, most recent first. *)
Record World : Type := {
  db : Db;
  history : list Db
}.

Definition start (d : Db) : World := {| db := d; history := [] |}.

Definition commit (d : Db) (w : World) : World :=
  {| db := d; history := d :: history w |}.

Definition M (A : Type) : Type := World -> (thrown + A) * World.

Definition ret {A} (a : A) : M A := fun w => (inr a, w).
Definition throw {A} (e : thrown) : M A := fun w => (inl e, w).

Definition bind {A B} (m : M A) (k : A -> M B) : M B :=
  fun w =>
    match m w with
    | (inr a, w') => k a w'
    | (inl e, w') => (inl e, w')
    end.

(** [try { body } catch (error) { handler }] *)
Definition try_catch {A} (body : M A) (handler : thrown -> M A) : M A :=
  fun w =>
    match body w with
    | (inr a, w') => (inr a, w')
    | (inl e, w') => handler e w'
    end.

(** A call that the collaborator may reject. *)
Definition awaited {A} (refused : option thrown) (served : M A) : M A :=
  match refused with
  | Some e => throw e
  | None => served
  end.

Notation "x <- m ;; k" := (bind m (fun x => k))
  (at level 100, m at next level, right associativity).

(** ** [Repository] operations used by the service *)

Module Repository.

(** [pronunciationRepository.save] of a new entity: the insert is rejected,
    or the database assigns the identifier and the creation time. *)
Definition save_attempt (answer : thrown + (string * Z))
    (entity : PronunciationAttempt) : M PronunciationAttempt :=
  match answer with
  | inl e => throw e
  | inr (new_id, now) =>
      fun w =>
        let row := Attempt.generated new_id now entity in
        (inr row,
         commit {| attempts := <[new_id := row]> (attempts (db w));
                   users := users (db w) |} w)
  end.

(** [pronunciationRepository.update(id, patch)]; a missing row is no error. *)
Definition update_attempt (refused : option thrown) (id : string)
    (patch : Attempt.Patch) : M unit :=
  awaited refused (fun w =>
    (inr tt,
     commit {| attempts := alter (Attempt.apply patch) id (attempts (db w));
               users := users (db w) |} w)).

(** [pronunciationRepository.findOne({ where: { id } })] *)
Definition findOne_attempt (refused : option thrown) (id : string)
    : M (option PronunciationAttempt) :=
  awaited refused (fun w => (inr (attempts (db w) !! id), w)).

(** [userRepository.findOne({ where: { id } })] *)
Definition findOne_user (refused : option thrown) (id : string)
    : M (option User) :=
  awaited refused (fun w => (inr (users (db w) !! id), w)).

(** [userRepository.update(id, patch)] *)
Definition update_user (refused : option thrown) (id : string)
    (patch : User.Patch) : M unit :=
  awaited refused (fun w =>
    (inr tt,
     commit {| attempts := attempts (db w);
               users := alter (User.apply patch) id (users (db w)) |} w)).

(** [order: { createdAt: 'DESC' }] *)
Definition newest_first (a b : PronunciationAttempt) : Prop :=
  Attempt.createdAt b <= Attempt.createdAt a.

#[global] Instance newest_first_dec a b : Decision (newest_first a b).
Proof. unfold newest_first. apply _. Defined.

(** The rows that [where: { userId }] selects, newest first. *)
Definition rows_of_user (userId : string) (d : Db) : list PronunciationAttempt :=
  merge_sort newest_first
    (filter (fun a => Attempt.userId a = Some userId)
            ((map_to_list (attempts d)).*2)).

(** [pronunciationRepository.findAndCount] with [where: { userId }],
    [order: { createdAt: 'DESC' }], [skip] and [take]: the requested window
    of the selected rows and the number of selected rows.  The model covers
    a non-negative [skip] and a positive [take]. *)
Definition findAndCount (refused : option thrown) (userId : string)
    (skip take : Z) : M (list PronunciationAttempt * Z) :=
  awaited refused (fun w =>
    let rows := rows_of_user userId (db w) in
    (inr (firstn (Z.to_nat take) (skipn (Z.to_nat skip) rows),
          Z.of_nat (length rows)), w)).

(** The rows that [where: { userId, processingStatus: 'completed' }]
    selects, newest first. *)
Definition completed_rows_of_user (userId : string) (d : Db)
    : list PronunciationAttempt :=
  merge_sort newest_first
    (filter (fun a => Attempt.userId a = Some userId /\
                      Attempt.processingStatus a = completed)
            ((map_to_list (attempts d)).*2)).

(** [pronunciationRepository.find] with that selection,
    [order: { createdAt: 'DESC' }] and [take]. *)
Definition find_completed (refused : option thrown) (userId : string)
    (take : nat) : M (list PronunciationAttempt) :=
  awaited refused (fun w =>
    (inr (firstn take (completed_rows_of_user userId (db w))), w)).

End Repository.

(** ** [PronunciationService] *)

Module PronunciationService.

Import PinataService.

Module Request.
Record CreatePronunciationAttemptRequest : Type := {
  userId : option string;
  originalText : string;
  audioBuffer : list Z;
  audioMetadata : AudioMetadata
}.
End Request.
Abbreviation CreatePronunciationAttemptRequest :=
  Request.CreatePronunciationAttemptRequest.

Module Response.
Record PronunciationAnalysisResponse : Type := {
  id : string;
  originalText : string;
  audioFileUrl : string;
  analysisResult : AnalysisResult;
  overallScore : number;
  processingStatus : Status;
  createdAt : Z
}.
End Response.
Abbreviation PronunciationAnalysisResponse :=
  Response.PronunciationAnalysisResponse.

(** What the collaborators answer to the calls of one run of
    [analyzePronunciation], in the order of the calls.  For a database call,
    [None] means that the call is served. *)
Record Env : Type := {
  (** [PINATA_GATEWAY_URL] *)
  gatewayUrl : string;
  (** step 1, [save]: rejected, or the generated identifier and creation time *)
  insert_attempt : thrown + (string * Z);
  (** step 2, [update] to [processing] *)
  mark_processing : option thrown;
  (** step 3, the pinning endpoint *)
  pinata_post : thrown + PinataUploadResponse;
  (** step 4, [update] with the hash and the address *)
  store_ipfs : option thrown;
  (** step 5, [findOne] of the user, and the completion endpoint *)
  find_user_level : option thrown;
  gemini_post : thrown + GeminiService.GeminiResponse;
  (** step 6, [update] with the result, and [findOne] of the row *)
  store_result : option thrown;
  reread_attempt : option thrown;
  (** step 7, [findOne] and [update] of the user *)
  find_user_stats : option thrown;
  store_stats : option thrown;
  (** the handler, [update] to [failed] *)
  mark_failed : option thrown
}.

(** Truthiness of an optional string: [undefined] and the empty string are
    falsy. *)
Definition supplied (s : option string) : option string :=
  match s with
  | Some x => if is_empty x then None else Some x
  | None => None
  end.

Definition empty_analysis : AnalysisResult :=
  {| Analysis.overallScore := Num 0;
     Analysis.toneAccuracy := Num 0;
     Analysis.pronunciationErrors := [];
     Analysis.suggestions := [];
     Analysis.detailedFeedback := JString EmptyString |}.

(** The entity that [createInitialAttempt] hands to [create]; its identifier
    and creation time are assigned by the insert. *)
Definition initial_entity (request : CreatePronunciationAttemptRequest)
    : PronunciationAttempt :=
  {| Attempt.id := EmptyString;
     Attempt.userId := Request.userId request;
     Attempt.originalText := Request.originalText request;
     Attempt.audioFileUrl := EmptyString;
     Attempt.ipfsHash := EmptyString;
     Attempt.analysisResult := empty_analysis;
     Attempt.audioMetadata := Request.audioMetadata request;
     Attempt.overallScore := Num 0;
     Attempt.processingStatus := pending;
     Attempt.errorMessage := None;
     Attempt.createdAt := 0 |}.

(** [createInitialAttempt] *)
Definition createInitialAttempt (saved : thrown + (string * Z))
    (request : CreatePronunciationAttemptRequest) : M PronunciationAttempt :=
  Repository.save_attempt saved (initial_entity request).

(** [{ processingStatus: status, errorMessage: errorMessage || undefined }] *)
Definition status_patch (status : Status) (errorMessage : option string)
    : Attempt.Patch :=
  {| Attempt.set_audioFileUrl := None;
     Attempt.set_ipfsHash := None;
     Attempt.set_analysisResult := None;
     Attempt.set_overallScore := None;
     Attempt.set_processingStatus := Some status;
     Attempt.set_errorMessage := supplied errorMessage |}.

(** [updateProcessingStatus] *)
Definition updateProcessingStatus (refused : option thrown) (attemptId : string)
    (status : Status) (errorMessage : option string) : M unit :=
  Repository.update_attempt refused attemptId (status_patch status errorMessage).

Record IpfsResult : Type := {
  ipfsHash : string;
  audioUrl : string
}.

(** [uploadAudioToIPFS] *)
Definition uploadAudioToIPFS (gateway : string)
    (post : thrown + PinataUploadResponse)
    (audioBuffer : list Z) (metadata : AudioMetadata) (attemptId : string)
    : M IpfsResult :=
  match uploadAudio post audioBuffer metadata with
  | inr uploadResult =>
      ret {| ipfsHash := IpfsHash uploadResult;
             audioUrl := getPublicUrl gateway (IpfsHash uploadResult) |}
  | inl error =>
      throw (JsError ("Failed to upload audio file: " +:+ error_text error))
  end.

(** [{ ipfsHash: ipfsResult.ipfsHash, audioFileUrl: ipfsResult.audioUrl }] *)
Definition ipfs_patch (ipfsResult : IpfsResult) : Attempt.Patch :=
  {| Attempt.set_audioFileUrl := Some (audioUrl ipfsResult);
     Attempt.set_ipfsHash := Some (ipfsHash ipfsResult);
     Attempt.set_analysisResult := None;
     Attempt.set_overallScore := None;
     Attempt.set_processingStatus := None;
     Attempt.set_errorMessage := None |}.

(** [updateAttemptWithIPFS] *)
Definition updateAttemptWithIPFS (refused : option thrown) (attemptId : string)
    (ipfsResult : IpfsResult) : M unit :=
  Repository.update_attempt refused attemptId (ipfs_patch ipfsResult).

(** The body of the [try] block of [performAIAnalysis]. *)
Definition ai_analysis_attempt (rt : Runtime) (find_refused : option thrown)
    (post : thrown + GeminiService.GeminiResponse)
    (audioUrl originalText : string) (userId : option string)
    : M AnalysisResult :=
  userLevel <-
    match supplied userId with
    | Some uid =>
        user <- Repository.findOne_user find_refused uid ;;
        ret (match user with
             | Some u => level_name (User.level u)
             | None => "Beginner"
             end)
    | None => ret "Beginner"
    end ;;
  match GeminiService.analyzePronunciation rt post
          {| GeminiService.audioUrl := audioUrl;
             GeminiService.originalText := originalText;
             GeminiService.userLevel := Some userLevel |} with
  | inr analysisResult => ret analysisResult
  | inl e => throw e
  end.

(** [performAIAnalysis] *)
Definition performAIAnalysis (rt : Runtime) (find_refused : option thrown)
    (post : thrown + GeminiService.GeminiResponse)
    (audioUrl originalText : string) (userId : option string)
    : M AnalysisResult :=
  try_catch
    (ai_analysis_attempt rt find_refused post audioUrl originalText userId)
    (fun error =>
       throw (JsError ("AI analysis failed: " +:+ message_in_template error))).

(** [{ analysisResult, overallScore: analysisResult.overallScore,
      processingStatus: 'completed' }] *)
Definition result_patch (analysisResult : AnalysisResult) : Attempt.Patch :=
  {| Attempt.set_audioFileUrl := None;
     Attempt.set_ipfsHash := None;
     Attempt.set_analysisResult := Some analysisResult;
     Attempt.set_overallScore := Some (Analysis.overallScore analysisResult);
     Attempt.set_processingStatus := Some completed;
     Attempt.set_errorMessage := None |}.

(** [finalizeAnalysis] *)
Definition finalizeAnalysis (update_refused find_refused : option thrown)
    (attemptId : string) (analysisResult : AnalysisResult)
    : M PronunciationAttempt :=
  _ <- Repository.update_attempt update_refused attemptId
         (result_patch analysisResult) ;;
  finalAttempt <- Repository.findOne_attempt find_refused attemptId ;;
  match finalAttempt with
  | None =>
      throw (JsError ("Failed to retrieve finalized attempt: " +:+ attemptId))
  | Some a => ret a
  end.

(** [updateUserStatistics] *)
Definition updateUserStatistics (find_refused update_refused : option thrown)
    (userId : string) (newScore : number) : M unit :=
  user <- Repository.findOne_user find_refused userId ;;
  match user with
  | None => ret tt
  | Some user =>
      let newTotalAttempts := User.totalAttempts user + 1 in
      let currentAverage := number_or_zero (User.averageScore user) in
      let newAverageScore :=
        div (add (mul currentAverage (Num (inject_Z (User.totalAttempts user))))
                 newScore)
            (Num (inject_Z newTotalAttempts)) in
      Repository.update_user update_refused userId
        {| User.set_totalAttempts := newTotalAttempts;
           User.set_averageScore :=
             div (Math_round (mul newAverageScore (Num 10))) (Num 10) |}
  end.

(** [mapToResponse] *)
Definition mapToResponse (attempt : PronunciationAttempt)
    : PronunciationAnalysisResponse :=
  {| Response.id := Attempt.id attempt;
     Response.originalText := Attempt.originalText attempt;
     Response.audioFileUrl := Attempt.audioFileUrl attempt;
     Response.analysisResult := Attempt.analysisResult attempt;
     Response.overallScore := Attempt.overallScore attempt;
     Response.processingStatus := Attempt.processingStatus attempt;
     Response.createdAt := Attempt.createdAt attempt |}.

(** Steps 2 to 7 of [analyzePronunciation]: the body of its [try] block. *)
Definition analysis_steps (rt : Runtime) (env : Env)
    (request : CreatePronunciationAttemptRequest)
    (attempt : PronunciationAttempt) : M PronunciationAnalysisResponse :=
  _ <- updateProcessingStatus (mark_processing env) (Attempt.id attempt)
         processing None ;;
  ipfsResult <- uploadAudioToIPFS (gatewayUrl env) (pinata_post env)
                  (Request.audioBuffer request) (Request.audioMetadata request)
                  (Attempt.id attempt) ;;
  _ <- updateAttemptWithIPFS (store_ipfs env) (Attempt.id attempt) ipfsResult ;;
  analysisResult <- performAIAnalysis rt (find_user_level env) (gemini_post env)
                      (audioUrl ipfsResult) (Request.originalText request)
                      (Request.userId request) ;;
  finalAttempt <- finalizeAnalysis (store_result env) (reread_attempt env)
                    (Attempt.id attempt) analysisResult ;;
  _ <- match supplied (Request.userId request) with
       | Some uid =>
           updateUserStatistics (find_user_stats env) (store_stats env) uid
             (Analysis.overallScore analysisResult)
       | None => ret tt
       end ;;
  ret (mapToResponse finalAttempt).

(** [analyzePronunciation] *)
Definition analyzePronunciation (rt : Runtime) (env : Env)
    (request : CreatePronunciationAttemptRequest)
    : M PronunciationAnalysisResponse :=
  attempt <- createInitialAttempt (insert_attempt env) request ;;
  try_catch
    (analysis_steps rt env request attempt)
    (fun error =>
       let errorMessage := error_text error in
       _ <- updateProcessingStatus (mark_failed env) (Attempt.id attempt)
              failed (Some errorMessage) ;;
       throw error).

(** [getPronunciationAttempt] *)
Definition getPronunciationAttempt (refused : option thrown) (id : string)
    : M PronunciationAnalysisResponse :=
  attempt <- Repository.findOne_attempt refused id ;;
  match attempt with
  | None =>
      throw (JsError ("Pronunciation attempt with ID " +:+ id +:+ " not found"))
  | Some a => ret (mapToResponse a)
  end.

Record AttemptPage : Type := {
  page_attempts : list PronunciationAnalysisResponse;
  total : Z;
  totalPages : number
}.

(** [getUserPronunciationAttempts] *)
Definition getUserPronunciationAttempts (refused : option thrown)
    (userId : string) (page limit : Z) : M AttemptPage :=
  found <- Repository.findAndCount refused userId ((page - 1) * limit) limit ;;
  ret {| page_attempts := map mapToResponse found.1;
         total := found.2;
         totalPages :=
           Math_ceil (div (Num (inject_Z found.2)) (Num (inject_Z limit))) |}.

Module Statistics.
Record UserStatistics : Type := {
  totalAttempts : Z;
  averageScore : number;
  bestScore : number;
  recentImprovement : number
}.
End Statistics.

(** [attempts.reduce((sum, a) => sum + a.overallScore, 0)] *)
Definition sum_scores (attempts : list PronunciationAttempt) : number :=
  fold_left (fun sum a => add sum (Attempt.overallScore a)) attempts (Num 0).

(** The mean of a group of attempts: [0] for the empty group of the last
    five, the other mean [otherwise] for the empty group before them. *)
Definition group_mean (group : list PronunciationAttempt) (otherwise : number)
    : number :=
  match group with
  | [] => otherwise
  | _ :: _ => div (sum_scores group) (Num (inject_Z (Z.of_nat (length group))))
  end.

(** [getUserStatistics] *)
Definition getUserStatistics (user_refused find_refused : option thrown)
    (userId : string) : M Statistics.UserStatistics :=
  user <- Repository.findOne_user user_refused userId ;;
  match user with
  | None => throw (JsError ("User with ID " +:+ userId +:+ " not found"))
  | Some user =>
      attempts <- Repository.find_completed find_refused userId 10 ;;
      let bestScore :=
        Math_max_with_zero (map Attempt.overallScore attempts) in
      let recent5 := firstn 5 attempts in
      let previous5 := firstn 5 (skipn 5 attempts) in
      let recentAvg := group_mean recent5 (Num 0) in
      let previousAvg := group_mean previous5 recentAvg in
      ret {| Statistics.totalAttempts := User.totalAttempts user;
             Statistics.averageScore := number_or_zero (User.averageScore user);
             Statistics.bestScore := bestScore;
             Statistics.recentImprovement := sub recentAvg previousAvg |}
  end.

(** The states of the tables after every served write of one run of
    [analyzePronunciation] on the tables [d], oldest first. *)
Definition run_trace (rt : Runtime) (env : Env)
    (request : CreatePronunciationAttemptRequest) (d : Db) : list Db :=
  reverse (history (analyzePronunciation rt env request (start d)).2).

(** The states that the row [id] goes through during that run. *)
Definition row_trace (rt : Runtime) (env : Env)
    (request : CreatePronunciationAttemptRequest) (d : Db) (id : string)
    : list PronunciationAttempt :=
  omap (fun s => attempts s !! id) (run_trace rt env request d).

End PronunciationService.

(** ** [ElevenLabsService] and [TtsController] *)

Module ElevenLabsService.

(** What these two classes throw: an [HttpException] with its message and
    status ([InternalServerErrorException] is the one with status 500), or
    any other value. *)
Inductive Raised : Type :=
| HttpException (message : string) (status : Z)
| Other (e : thrown).

Record TTSRequest : Type := {
  text : string;
  voiceId : string;
  modelId : string
}.

(** The constructor *)
Definition constructor (config : string -> option string) : thrown + string :=
  match config "ELEVENLABS_API_KEY" with
  | Some apiKey =>
      if is_empty apiKey
      then inl (JsError "ELEVENLABS_API_KEY is not defined in the .env file")
      else inr apiKey
  | None => inl (JsError "ELEVENLABS_API_KEY is not defined in the .env file")
  end.

(** [generateSpeech], given the answer [post] of the speech endpoint: the
    bytes of the audio, or a rejection. *)
Definition generateSpeech (post : thrown + list Z) (request : TTSRequest)
    : Raised + list Z :=
  match post with
  | inr data => inr data
  | inl error =>
      inl (HttpException "Failed to generate speech from ElevenLabs" 500)
  end.

End ElevenLabsService.

Module TtsController.

Import ElevenLabsService.

Definition VIETNAMESE_MODEL_ID : string := "eleven_turbo_v2_5".
Definition VIETNAMESE_VOICE_ID : string := "VkftF4RyfVI5yIYa6wFa".

(** What [res.set] and [res.send] put on the wire. *)
Record Reply : Type := {
  headers : list (string * string);
  body : list Z
}.

(** The body of the [try] block of [vietnameseTTS]; [payload_text] is
    [payload.text], which the request may lack.  A string has length 0
    exactly when it is the empty string. *)
Definition tts_attempt (post : thrown + list Z) (send_refused : option thrown)
    (payload_text : option string) : Raised + Reply :=
  match payload_text with
  | None => inl (HttpException "Text is required" 400)
  | Some text =>
      if (is_empty text || is_empty (trim text))%bool
      then inl (HttpException "Text is required" 400)
      else
        match generateSpeech post
                {| ElevenLabsService.text := text;
                   modelId := VIETNAMESE_MODEL_ID;
                   voiceId := VIETNAMESE_VOICE_ID |} with
        | inl e => inl e
        | inr audioBuffer =>
            match send_refused with
            | Some e => inl (Other e)
            | None =>
                inr {| headers :=
                         [("Content-Type", "audio/mpeg");
                          ("Content-Disposition",
                           "attachment; filename=" +:+
                           String (Ascii.ascii_of_nat 34) "vietnamese_speech.mp3"
                           +:+ String (Ascii.ascii_of_nat 34) EmptyString)];
                       body := audioBuffer |}
            end
        end
  end.

(** [vietnameseTTS] *)
Definition vietnameseTTS (post : thrown + list Z) (send_refused : option thrown)
    (payload_text : option string) : Raised + Reply :=
  match tts_attempt post send_refused payload_text with
  | inr reply => inr reply
  | inl (HttpException message status) => inl (HttpException message status)
  | inl (Other _) => inl (HttpException "TTS generation failed" 500)
  end.

End TtsController.

(** * Vocabulary of the properties *)

Import PronunciationService PinataService.

(** The answer contains a JSON object: some piece of it that starts with an
    opening brace is accepted by [JSON.parse]. *)
Definition contains_json_object (rt : Runtime) (text : string) : Prop :=
  exists pre obj post rest v,
    text = pre +:+ obj +:+ post /\
    obj = String GeminiService.open_brace rest /\
    JSON_parse rt obj = Some v.


(** ** The states of the attempt row during a run *)

Section RowStates.

Variables (rt : Runtime) (env : Env).
Variables (request : CreatePronunciationAttemptRequest) (d : Db).
Variables (id : string) (now : Z).

(** The row after step 1, after step 2, after step 4 and after step 6, and a
    row after the handler marked it failed. *)
Definition row_created : PronunciationAttempt :=
  Attempt.generated id now (initial_entity request).

Definition row_processing : PronunciationAttempt :=
  Attempt.apply (status_patch processing None) row_created.

Definition row_uploaded (resp : PinataUploadResponse) : PronunciationAttempt :=
  Attempt.apply
    (ipfs_patch {| ipfsHash := IpfsHash resp;
                   audioUrl := getPublicUrl (gatewayUrl env) (IpfsHash resp) |})
    row_processing.

Definition row_completed (resp : PinataUploadResponse) (result : AnalysisResult)
    : PronunciationAttempt :=
  Attempt.apply (result_patch result) (row_uploaded resp).

Definition marked_failed (e : thrown) (row : PronunciationAttempt)
    : PronunciationAttempt :=
  Attempt.apply (status_patch failed (Some (error_text e))) row.

(** The sequences of states that the row of a run can go through.  The last
    constructor is the run in which step 7 updated the user: that write leaves
    the attempt row as it is. *)
Inductive RowTrace : list PronunciationAttempt -> Prop :=
| trace_created :
    RowTrace [row_created]
| trace_created_failed e :
    RowTrace [row_created; marked_failed e row_created]
| trace_processing :
    RowTrace [row_created; row_processing]
| trace_processing_failed e :
    RowTrace [row_created; row_processing; marked_failed e row_processing]
| trace_uploaded resp :
    pinata_post env = inr resp ->
    RowTrace [row_created; row_processing; row_uploaded resp]
| trace_uploaded_failed resp e :
    pinata_post env = inr resp ->
    RowTrace [row_created; row_processing; row_uploaded resp;
              marked_failed e (row_uploaded resp)]
| trace_completed resp result :
    pinata_post env = inr resp ->
    GeminiService.analysis_attempt rt (gemini_post env) = inr result ->
    RowTrace [row_created; row_processing; row_uploaded resp;
              row_completed resp result]
| trace_completed_failed resp result e :
    pinata_post env = inr resp ->
    GeminiService.analysis_attempt rt (gemini_post env) = inr result ->
    RowTrace [row_created; row_processing; row_uploaded resp;
              row_completed resp result;
              marked_failed e (row_completed resp result)]
| trace_counted resp result :
    pinata_post env = inr resp ->
    GeminiService.analysis_attempt rt (gemini_post env) = inr result ->
    RowTrace [row_created; row_processing; row_uploaded resp;
              row_completed resp result; row_completed resp result].

End RowStates.

(** Step 5 fails: the lookup of the user is rejected, or the call of the
    Gemini service throws. *)
Definition analysis_step_fails (rt : Runtime) (env : Env)
    (request : CreatePronunciationAttemptRequest) : Prop :=
  (exists uid e,
     supplied (Request.userId request) = Some uid /\
     find_user_level env = Some e) \/
  (exists e, GeminiService.analysis_attempt rt (gemini_post env) = inl e).

(** The two rows differ at most in [processingStatus] and [errorMessage]. *)
Definition same_but_status (a b : PronunciationAttempt) : Prop :=
  Attempt.id a = Attempt.id b /\
  Attempt.userId a = Attempt.userId b /\
  Attempt.originalText a = Attempt.originalText b /\
  Attempt.audioFileUrl a = Attempt.audioFileUrl b /\
  Attempt.ipfsHash a = Attempt.ipfsHash b /\
  Attempt.analysisResult a = Attempt.analysisResult b /\
  Attempt.audioMetadata a = Attempt.audioMetadata b /\
  Attempt.overallScore a = Attempt.overallScore b /\
  Attempt.createdAt a = Attempt.createdAt b.

(** The scores of a group are numbers. *)
Definition numeric_scores (group : list PronunciationAttempt) : Prop :=
  forall a, a ∈ group -> exists q, Attempt.overallScore a = Num q.

(** The scores of a group lie between 0 and 100. *)
Definition scores_in_range (group : list PronunciationAttempt) : Prop :=
  forall a, a ∈ group -> in_0_100 (Attempt.overallScore a).

(** The attempts on page [page] of the listing, when the query is served. *)
Definition listed_page (userId : string) (limit : Z) (w : World) (page : Z)
    : list PronunciationAnalysisResponse :=
  match getUserPronunciationAttempts None userId page limit w with
  | (inr result, _) => page_attempts result
  | (inl _, _) => []
  end.

(** [c] occurs in [s]. *)
Fixpoint occurs (c : ascii) (s : string) : bool :=
  match s with
  | EmptyString => false
  | String c' rest => (Ascii.eqb c' c || occurs c rest)%bool
  end.

(** The UTF-8 encoding of the code point [cp]. *)
Definition utf8 (cp : N) : string :=
  bytes
    (map N.to_nat
       (if (cp <? 128)%N then [cp]
        else if (cp <? 2048)%N then [192 + cp / 64; 128 + cp mod 64]
        else if (cp <? 65536)%N
        then [224 + cp / 4096; 128 + (cp / 64) mod 64; 128 + cp mod 64]
        else [240 + cp / 262144; 128 + (cp / 4096) mod 64;
              128 + (cp / 64) mod 64; 128 + cp mod 64])%N).

(** The code points of the [WhiteSpace] and [LineTerminator] productions of
    ECMAScript: tab, line feed, vertical tab, form feed, carriage return,
    the members of the Unicode category of space separators, the line and
    paragraph separators and the byte order mark. *)
Definition white_space_code_points : list N :=
  [0x0009; 0x000A; 0x000B; 0x000C; 0x000D; 0x0020; 0x00A0; 0x1680;
   0x2000; 0x2001; 0x2002; 0x2003; 0x2004; 0x2005; 0x2006; 0x2007;
   0x2008; 0x2009; 0x200A; 0x2028; 0x2029; 0x202F; 0x205F; 0x3000;
   0xFEFF]%N.

(** [s] consists of white space only: it is a sequence of such characters,
    possibly none. *)
Inductive white_space_only : string -> Prop :=
| white_space_none : white_space_only EmptyString
| white_space_more cp s :
    In cp white_space_code_points ->
    white_space_only s ->
    white_space_only (utf8 cp +:+ s).

(** [a === b] on numbers: [NaN] equals no number, itself included. *)
Definition numerically_equal (a b : number) : Prop :=
  match a, b with
  | Num x, Num y => (x == y)%Q
  | _, _ => False
  end.

(** The response [r] shows the row [a]: each of its seven fields is the
    field of the row. *)
Definition shows (r : PronunciationAnalysisResponse) (a : PronunciationAttempt)
    : Prop :=
  Response.id r = Attempt.id a /\
  Response.originalText r = Attempt.originalText a /\
  Response.audioFileUrl r = Attempt.audioFileUrl a /\
  Response.analysisResult r = Attempt.analysisResult a /\
  Response.overallScore r = Attempt.overallScore a /\
  Response.processingStatus r = Attempt.processingStatus a /\
  Response.createdAt r = Attempt.createdAt a.

(** [rows] are the rows of the table of attempts that belong to [userId],
    each taken once under its key, the newest first. *)
Definition rows_of (userId : string) (d : Db) (rows : list PronunciationAttempt)
    : Prop :=
  (exists keys,
     NoDup keys /\
     (forall k, In k keys <->
                exists a, attempts d !! k = Some a /\
                          Attempt.userId a = Some userId) /\
     Forall2 (fun k a => attempts d !! k = Some a) keys rows) /\
  (forall (i j : nat) a b,
     (i <= j)%nat -> rows !! i = Some a -> rows !! j = Some b ->
     Attempt.createdAt b <= Attempt.createdAt a).

(** The refusal of a request without text. *)
Definition text_required : ElevenLabsService.Raised :=
  ElevenLabsService.HttpException "Text is required" 400.

(** ** Sample runs *)

Module Sample.

(** A runtime for answers that hold no brace, on which [JSON.parse] is never
    called. *)
Definition runtime : Runtime :=
  {| JSON_parse := fun _ => None;
     StringToNumber := fun _ => NaN;
     ArrayToString := fun _ => EmptyString |}.

Definition metadata : AudioMetadata :=
  {| Audio.duration := Num 2;
     Audio.sampleRate := Num 16000;
     Audio.format := "wav";
     Audio.size := Num 64000 |}.

Definition anonymous_request : CreatePronunciationAttemptRequest :=
  {| Request.userId := None;
     Request.originalText := "ni hao";
     Request.audioBuffer := [82; 73; 70; 70];
     Request.audioMetadata := metadata |}.

Definition learner_request : CreatePronunciationAttemptRequest :=
  {| Request.userId := Some "u1";
     Request.originalText := "ni hao";
     Request.audioBuffer := [82; 73; 70; 70];
     Request.audioMetadata := metadata |}.

Definition learner : User :=
  {| User.id := "u1";
     User.email := "learner@example.org";
     User.username := "learner";
     User.displayName := None;
     User.level := HSK2;
     User.totalAttempts := 3;
     User.averageScore := Some (Num 80);
     User.isActive := true |}.

Definition empty_db : Db := {| attempts := ∅; users := ∅ |}.

Definition db_with_learner : Db :=
  {| attempts := ∅; users := {[ "u1" := learner ]} |}.

Definition pinned : PinataUploadResponse :=
  {| IpfsHash := "QmHash"; PinSize := Num 64000; Timestamp := "2025-07-28" |}.

Definition plain_answer : GeminiService.GeminiResponse :=
  {| GeminiService.candidates := Some [["Good tones, clear finals."]] |}.

(** Every call is served. *)
Definition served : Env :=
  {| gatewayUrl := "gateway.example.org";
     insert_attempt := inr ("a1", 1000);
     mark_processing := None;
     pinata_post := inr pinned;
     store_ipfs := None;
     find_user_level := None;
     gemini_post := inr plain_answer;
     store_result := None;
     reread_attempt := None;
     find_user_stats := None;
     store_stats := None;
     mark_failed := None |}.

(** The pinning endpoint rejects the upload. *)
Definition upload_fails : Env :=
  {| gatewayUrl := "gateway.example.org";
     insert_attempt := inr ("a1", 1000);
     mark_processing := None;
     pinata_post := inl (JsError "timeout of 30000ms exceeded");
     store_ipfs := None;
     find_user_level := None;
     gemini_post := inr plain_answer;
     store_result := None;
     reread_attempt := None;
     find_user_stats := None;
     store_stats := None;
     mark_failed := None |}.

(** The completion endpoint rejects the request. *)
Definition analysis_fails : Env :=
  {| gatewayUrl := "gateway.example.org";
     insert_attempt := inr ("a1", 1000);
     mark_processing := None;
     pinata_post := inr pinned;
     store_ipfs := None;
     find_user_level := None;
     gemini_post := inl (JsError "Request failed with status code 503");
     store_result := None;
     reread_attempt := None;
     find_user_stats := None;
     store_stats := None;
     mark_failed := None |}.

(** The database rejects the update of the user in step 7. *)
Definition statistics_fail : Env :=
  {| gatewayUrl := "gateway.example.org";
     insert_attempt := inr ("a1", 1000);
     mark_processing := None;
     pinata_post := inr pinned;
     store_ipfs := None;
     find_user_level := None;
     gemini_post := inr plain_answer;
     store_result := None;
     reread_attempt := None;
     find_user_stats := None;
     store_stats := Some (JsError "connection terminated");
     mark_failed := None |}.

Definition double_quote : string := String (Ascii.ascii_of_nat 34) EmptyString.

(** The answer [{ overallScore: high, toneAccuracy: 80 }], written as JSON
    with the score given as the string [high]. *)
Definition worded_score_answer : string :=
  "{" +:+ double_quote +:+ "overallScore" +:+ double_quote +:+ ":"
      +:+ double_quote +:+ "high" +:+ double_quote +:+ ","
      +:+ double_quote +:+ "toneAccuracy" +:+ double_quote +:+ ":80}".

Definition worded_score_value : json :=
  JObject [("overallScore", JString "high"); ("toneAccuracy", JNumber 80)].

(** A runtime that agrees with JavaScript on that answer: [JSON.parse]
    returns the object, and [Number] of a string that is no numeral is
    [NaN]. *)
Definition runtime_for_worded_score : Runtime :=
  {| JSON_parse := fun text =>
       if String.eqb text worded_score_answer then Some worded_score_value
       else None;
     StringToNumber := fun text => if is_empty text then Num 0 else NaN;
     ArrayToString := fun _ => EmptyString |}.

End Sample.

(** Further scenes. *)
Module Scene.

(** The database rejects the insert of step 1. *)
Definition rejected_insert : Env :=
  {| gatewayUrl := "gateway.example.org";
     insert_attempt := inl (JsError "connection refused");
     mark_processing := None;
     pinata_post := inr Sample.pinned;
     store_ipfs := None;
     find_user_level := None;
     gemini_post := inr Sample.plain_answer;
     store_result := None;
     reread_attempt := None;
     find_user_stats := None;
     store_stats := None;
     mark_failed := None |}.

(** The upload is rejected, and so is the write of the handler. *)
Definition rejected_handler : Env :=
  {| gatewayUrl := "gateway.example.org";
     insert_attempt := inr ("a1", 1000);
     mark_processing := None;
     pinata_post := inl (JsError "timeout of 30000ms exceeded");
     store_ipfs := None;
     find_user_level := None;
     gemini_post := inr Sample.plain_answer;
     store_result := None;
     reread_attempt := None;
     find_user_stats := None;
     store_stats := None;
     mark_failed := Some (JsError "connection terminated") |}.

(** The tables after one served run for the learner. *)
Definition after_run : World :=
  (analyzePronunciation Sample.runtime Sample.served Sample.learner_request
     (start Sample.db_with_learner)).2.






(** An attempt of the user [userId], completed, created at [created]. *)
Definition attempt_of (id userId : string) (created : Z) : PronunciationAttempt :=
  {| Attempt.id := id;
     Attempt.userId := Some userId;
     Attempt.originalText := "ni hao";
     Attempt.audioFileUrl := "https://gateway.example.org/ipfs/QmHash";
     Attempt.ipfsHash := "QmHash";
     Attempt.analysisResult :=
       GeminiService.fallback_result "Good tones, clear finals.";
     Attempt.audioMetadata := Sample.metadata;
     Attempt.overallScore := Num 75;
     Attempt.processingStatus := completed;
     Attempt.errorMessage := None;
     Attempt.createdAt := created |}.

(** Fifteen attempts of the learner, created one after the other, and two
    attempts of another user. *)
Definition fifteen_attempts : Db :=
  {| attempts :=
       list_to_map
         (map (fun p : string * Z => (p.1, attempt_of p.1 "u1" p.2))
              [("a07", 1007); ("a01", 1001); ("a12", 1012); ("a03", 1003);
               ("a15", 1015); ("a09", 1009); ("a05", 1005); ("a02", 1002);
               ("a11", 1011); ("a14", 1014); ("a04", 1004); ("a08", 1008);
               ("a13", 1013); ("a06", 1006); ("a10", 1010)]
          ++ [("b01", attempt_of "b01" "u2" 1004);
              ("b02", attempt_of "b02" "u2" 1020)]);
     users := {[ "u1" := Sample.learner ]} |}.

(** Every call is served, and the model gives its score in words. *)
Definition served_worded_score : Env :=
  {| gatewayUrl := "gateway.example.org";
     insert_attempt := inr ("a1", 1000);
     mark_processing := None;
     pinata_post := inr Sample.pinned;
     store_ipfs := None;
     find_user_level := None;
     gemini_post :=
       inr {| GeminiService.candidates := Some [[Sample.worded_score_answer]] |};
     store_result := None;
     reread_attempt := None;
     find_user_stats := None;
     store_stats := None;
     mark_failed := None |}.

(** An answer of 200 Chinese characters, which take 600 bytes and 200 code
    units, and one of 600 characters. *)
Definition chinese_answer : string :=
  String.concat EmptyString (repeat "中" 200).

Definition long_chinese_answer : string :=
  String.concat EmptyString (repeat "中" 600).

End Scene.

(** * Properties *)

(** ** The result parser of [GeminiService] *)

Section ParseAnalysisResult.

Import GeminiService.

Variable rt : Runtime.

Lemma from_first_open_split s m :
  from_first_open s = Some m ->
  exists pre rest, s = pre +:+ m /\ m = String open_brace rest.
Proof.
  induction s as [|c s IH]; simpl; [discriminate|].
  destruct (Ascii.eqb c open_brace) eqn:E.
  - intros [= <-]. apply Ascii.eqb_eq in E. subst c.
    exists EmptyString, s. split; reflexivity.
  - intros H. destruct (IH H) as (pre & rest & -> & ->).
    exists (String c pre), rest. split; reflexivity.
Qed.

Lemma upto_last_close_split s m :
  upto_last_close s = Some m ->
  exists post, s = m +:+ post /\
    (forall c rest, s = String c rest -> exists rest', m = String c rest').
Proof.
  revert m. induction s as [|c s IH]; simpl; [discriminate|].
  intros m. destruct (upto_last_close s) as [p|] eqn:E.
  - intros [= <-]. destruct (IH p eq_refl) as (post & -> & _).
    exists post. split; [reflexivity|].
    intros c' rest [= <- <-]. eauto.
  - destruct (Ascii.eqb c close_brace); [|discriminate].
    intros [= <-]. exists s. split; [reflexivity|].
    intros c' rest [= <- <-]. eauto.
Qed.

(** The matched text is a piece of the answer that starts with a brace. *)
Lemma match_braces_split text m :
  match_braces text = Some m ->
  exists pre post rest, text = pre +:+ m +:+ post /\ m = String open_brace rest.
Proof.
  unfold match_braces.
  destruct (from_first_open text) as [s|] eqn:E; [|discriminate].
  intros H. destruct (from_first_open_split _ _ E) as (pre & rest & -> & ->).
  destruct (upto_last_close_split _ _ H) as (post & Hs & Hfirst).
  destruct (Hfirst _ _ eq_refl) as (rest' & ->).
  exists pre, post, rest'. split; [|reflexivity]. by rewrite Hs at 1.
Qed.

(** An answer without a JSON object yields the fallback result. *)
Lemma parse_without_json_object text :
  ~ contains_json_object rt text ->
  parseAnalysisResult rt text = fallback_result text.
Proof.
  intros Hno. unfold parseAnalysisResult.
  destruct (match_braces text) as [m|] eqn:Em; [|reflexivity].
  destruct (JSON_parse rt m) as [v|] eqn:Ep; [|reflexivity].
  exfalso. apply Hno.
  destruct (match_braces_split _ _ Em) as (pre & post & rest & Ht & Hm).
  exists pre, m, post, rest, v. auto.
Qed.

(** The fallback result, field by field. *)
Lemma fallback_result_fields text :
  Analysis.overallScore (fallback_result text) = Num 75 /\
  Analysis.toneAccuracy (fallback_result text) = Num 70 /\
  Analysis.pronunciationErrors (fallback_result text) = [JString cannot_analyse] /\
  Analysis.suggestions (fallback_result text) = [JString try_again_clearer] /\
  Analysis.detailedFeedback (fallback_result text)
    = JString (substring_from_start 500 text).
Proof. repeat split. Qed.

Lemma clamp_of_number q :
  in_0_100 (Math_max (Num 0) (Math_min (Num 100) (Num q))).
Proof.
  simpl. destruct (Qle_bool 100 q) eqn:E1.
  - simpl. split; [discriminate|apply Qle_refl].
  - assert (Hq : (q < 100)%Q).
    { apply Qnot_le_lt. intros H. apply Qle_bool_iff in H. congruence. }
    destruct (Qle_bool 0 q) eqn:E2.
    + apply Qle_bool_iff in E2. split; [assumption|by apply Qlt_le_weak].
    + split; [apply Qle_refl|discriminate].
Qed.

(** A clamped score is out of range only when the value converts to [NaN]. *)
Lemma clamp_score_range v n :
  clamp_score rt v = Some n ->
  in_0_100 n \/ (n = NaN /\ ToNumber rt (or_zero v) = Some NaN).
Proof.
  unfold clamp_score. destruct (ToNumber rt (or_zero v)) as [[q|]|]; intros [= <-].
  - left. apply clamp_of_number.
  - right. split; reflexivity.
Qed.

(** A score that is absent, [null], a boolean or a number is clamped into
    the interval. *)
Lemma clamp_score_numeric v :
  match v with
  | None | Some JNull | Some (JBool _) | Some (JNumber _) => True
  | _ => False
  end ->
  exists n, clamp_score rt v = Some n /\ in_0_100 n.
Proof.
  assert (Hnum : forall q, exists n,
            Some (Math_max (Num 0) (Math_min (Num 100) (Num q))) = Some n /\
            in_0_100 n).
  { intros q. eexists. split; [reflexivity|apply clamp_of_number]. }
  unfold clamp_score, or_zero.
  destruct v as [[| b | q | s | items | fields]|]; try contradiction; intros _.
  - apply (Hnum 0%Q).
  - destruct b; [apply (Hnum 1%Q)|apply (Hnum 0%Q)].
  - cbn [truthy]. destruct (negb (Qeq_bool q 0)); [apply (Hnum q)|apply (Hnum 0%Q)].
  - apply (Hnum 0%Q).
Qed.

(** Each score of the parsed result lies in the interval or is [NaN]. *)
Lemma parse_score_range text :
  (in_0_100 (Analysis.overallScore (parseAnalysisResult rt text)) \/
   Analysis.overallScore (parseAnalysisResult rt text) = NaN) /\
  (in_0_100 (Analysis.toneAccuracy (parseAnalysisResult rt text)) \/
   Analysis.toneAccuracy (parseAnalysisResult rt text) = NaN).
Proof.
  assert (Hfallback : forall t,
    (in_0_100 (Analysis.overallScore (fallback_result t)) \/
     Analysis.overallScore (fallback_result t) = NaN) /\
    (in_0_100 (Analysis.toneAccuracy (fallback_result t)) \/
     Analysis.toneAccuracy (fallback_result t) = NaN)).
  { intros t. split; left; split; discriminate. }
  unfold parseAnalysisResult.
  destruct (match_braces text) as [m|]; [|apply Hfallback].
  destruct (JSON_parse rt m) as [parsed|]; [|apply Hfallback].
  destruct (structured_result rt parsed) as [result|] eqn:E; [|apply Hfallback].
  unfold structured_result in E.
  destruct (get_property parsed "overallScore") as [overall|]; [|discriminate].
  destruct (clamp_score rt overall) as [o|] eqn:Eo; [|discriminate].
  destruct (get_property parsed "toneAccuracy") as [tone|]; [|discriminate].
  destruct (clamp_score rt tone) as [t|] eqn:Et; [|discriminate].
  destruct (get_property parsed "pronunciationErrors"); [|discriminate].
  destruct (get_property parsed "suggestions"); [|discriminate].
  destruct (get_property parsed "detailedFeedback"); [|discriminate].
  injection E as <-. cbn [Analysis.overallScore Analysis.toneAccuracy].
  split.
  - destruct (clamp_score_range _ _ Eo) as [H|[H _]]; auto.
  - destruct (clamp_score_range _ _ Et) as [H|[H _]]; auto.
Qed.

End ParseAnalysisResult.

(** C7: the range of the scores fails for an answer whose JSON object gives
    [overallScore] as a string that is no numeral: the string is truthy,
    [Math.min] converts it to [NaN], and the result carries [NaN], which is
    not between 0 and 100. *)
Theorem worded_score_is_not_clamped rt :
  JSON_parse rt Sample.worded_score_answer = Some Sample.worded_score_value ->
  StringToNumber rt "high" = NaN ->
  Analysis.overallScore
    (GeminiService.parseAnalysisResult rt Sample.worded_score_answer) = NaN /\
  ~ in_0_100 (Analysis.overallScore
                (GeminiService.parseAnalysisResult rt Sample.worded_score_answer)) /\
  Analysis.toneAccuracy
    (GeminiService.parseAnalysisResult rt Sample.worded_score_answer) = Num 80.
Proof.
  intros Hparse Hnumber.
  assert (Hmatch : GeminiService.match_braces Sample.worded_score_answer
                   = Some Sample.worded_score_answer) by reflexivity.
  unfold GeminiService.parseAnalysisResult. rewrite Hmatch, Hparse.
  unfold Sample.worded_score_value, GeminiService.structured_result,
    GeminiService.clamp_score.
  cbn [get_property assoc String.eqb Ascii.eqb Bool.eqb or_zero truthy is_empty
       negb ToNumber].
  rewrite Hnumber. cbn. repeat split. intros [].
Qed.

Lemma worded_score_is_not_clamped_witness :
  Analysis.overallScore
    (GeminiService.parseAnalysisResult Sample.runtime_for_worded_score
       Sample.worded_score_answer) = NaN.
Proof.
  exact (proj1 (worded_score_is_not_clamped Sample.runtime_for_worded_score
                  eq_refl eq_refl)).
Defined.

(** ** Statistics of a user *)

Section Statistics.


(** [updateUserStatistics] on an existing user, when the database serves
    both calls: the new row and nothing else. *)
Lemma updateUserStatistics_existing uid u s w :
  users (db w) !! uid = Some u ->
  0 <= User.totalAttempts u ->
  exists r,
    updateUserStatistics None None uid (Num s) w =
      (inr tt,
       commit {| attempts := attempts (db w);
                 users := <[uid :=
                   User.apply {| User.set_totalAttempts := User.totalAttempts u + 1;
                                 User.set_averageScore := Num r |} u]> (users (db w)) |}
              w) /\
    forall avg, number_or_zero (User.averageScore u) = Num avg ->
      (r == inject_Z (Qfloor
              ((avg * inject_Z (User.totalAttempts u) + s)
                 / inject_Z (User.totalAttempts u + 1) * 10 + (1 # 2))) / 10)%Q.
Proof.
  intros Hu Hn.
  unfold updateUserStatistics, bind, Repository.findOne_user, awaited.
  rewrite Hu. cbn [Repository.update_user awaited].
  destruct (number_or_zero (User.averageScore u)) as [cur|] eqn:Ecur.
  2:{ destruct (User.averageScore u) as [[q|]|]; simpl in Ecur;
      [destruct (Qeq_bool q 0)|..]; discriminate. }
  assert (Hnz : Qeq_bool (inject_Z (User.totalAttempts u + 1)) 0 = false).
  { apply not_true_is_false. intros H. apply Qeq_bool_eq in H.
    unfold Qeq in H. simpl in H. lia. }
  cbn [mul add div Math_round]. rewrite Hnz. cbn [mul Math_round div].
  change (Qeq_bool 10 0) with false. cbv iota.
  eexists. split.
  - f_equal. f_equal. f_equal.
    apply map_eq. intros j. rewrite lookup_alter, lookup_insert.
    case_decide; [subst j; by rewrite Hu|reflexivity].
  - intros avg [= <-]. reflexivity.
Qed.


End Statistics.

(** ** The shape of a run *)

(** Unfolds one run into the tree of its collaborator answers. *)
Ltac unfold_run :=
  unfold analyzePronunciation, analysis_steps, createInitialAttempt,
    updateProcessingStatus, uploadAudioToIPFS, updateAttemptWithIPFS,
    performAIAnalysis, ai_analysis_attempt, finalizeAnalysis,
    updateUserStatistics, GeminiService.analyzePronunciation, uploadAudio,
    Repository.save_attempt, Repository.update_attempt, Repository.update_user,
    Repository.findOne_attempt, Repository.findOne_user,
    bind, try_catch, awaited, ret, throw.

Ltac run_simpl :=
  cbn [fst snd db history start commit attempts users
       Attempt.id Attempt.generated].

(** Follows the run along every answer that the code inspects. *)
Ltac run_cases :=
  repeat match goal with
  | |- context [alter ?f ?i ?m !! ?i] =>
      rewrite (lookup_alter_eq f m i); run_simpl
  | |- context [<[?i := ?x]> ?m !! ?i] =>
      rewrite (lookup_insert_eq m i x); run_simpl
  | |- context [_ <$> Some _] =>
      cbn [fmap option_fmap option_map]; run_simpl
  | |- context [match ?x with _ => _ end] =>
      lazymatch x with
      | context [match _ with _ => _ end] => fail
      | _ => destruct x eqn:?
      end; run_simpl
  end.

Ltac rows_simpl :=
  cbn -[Attempt.apply Attempt.generated status_patch ipfs_patch result_patch
        getPublicUrl];
  rewrite ?lookup_alter_eq, ?lookup_insert_eq;
  cbn -[Attempt.apply Attempt.generated status_patch ipfs_patch result_patch
        getPublicUrl].

(** Every run that created its row takes the row through one of the
    sequences of [RowTrace]. *)
Lemma row_trace_shape rt env request d id now :
  insert_attempt env = inr (id, now) ->
  RowTrace rt env request id now (row_trace rt env request d id).
Proof.
  intros Hi. unfold row_trace, run_trace. unfold_run. rewrite Hi.
  run_simpl. run_cases.
  all: rows_simpl.
  all: first
    [ econstructor; eassumption
    | eapply (trace_created_failed _ _ _ _ _ (JsError _))
    | eapply (trace_processing_failed _ _ _ _ _ (JsError _))
    | eapply (trace_uploaded_failed _ _ _ _ _ _ (JsError _)); eassumption
    | eapply (trace_completed_failed _ _ _ _ _ _ _ (JsError _)); eassumption ].
Qed.

(** ** The workflow *)

Ltac split_elem H :=
  repeat (apply elem_of_cons in H as [H | H]; [subst|]);
  try (apply elem_of_nil in H; contradiction).

(** In every state of the row in which it is completed, the two scores are
    the same value. *)
Lemma completed_row_scores_agree rt env request d id now row :
  insert_attempt env = inr (id, now) ->
  row ∈ row_trace rt env request d id ->
  Attempt.processingStatus row = completed ->
  Attempt.overallScore row = Analysis.overallScore (Attempt.analysisResult row).
Proof.
  intros Hi Hin Hst.
  destruct (row_trace_shape rt env request d id now Hi);
    split_elem Hin; try discriminate Hst; reflexivity.
Qed.

(** When the upload, the analysis and every database call succeed,
    [analyzePronunciation] returns the [completed] row as its response, in
    which [overallScore] is the value of the [overallScore] of the
    [analysisResult]. *)
Lemma served_run_outcome rt env request d id now resp result :
  insert_attempt env = inr (id, now) ->
  mark_processing env = None ->
  pinata_post env = inr resp ->
  store_ipfs env = None ->
  find_user_level env = None ->
  GeminiService.analysis_attempt rt (gemini_post env) = inr result ->
  store_result env = None ->
  reread_attempt env = None ->
  find_user_stats env = None ->
  store_stats env = None ->
  exists response w',
    analyzePronunciation rt env request (start d) = (inr response, w') /\
    Response.processingStatus response = completed /\
    Response.overallScore response =
      Analysis.overallScore (Response.analysisResult response) /\
    Response.analysisResult response = result /\
    attempts (db w') !! id = Some (row_completed env request id now resp result) /\
    forall row,
      row ∈ row_trace rt env request d id ->
      Attempt.processingStatus row = completed ->
      Attempt.overallScore row = Analysis.overallScore (Attempt.analysisResult row).
Proof.
  intros Hi Hp Hu Hs Hl Ha Hr Hrr Hfs Hss.
  assert (Hinv := fun row => completed_row_scores_agree rt env request d id now row Hi).
  revert Hinv. generalize (row_trace rt env request d id). intros trace Hinv.
  unfold_run. rewrite Hi, Hp, Hu, Hs, Hl, Ha, Hr, Hrr, Hfs, Hss.
  run_simpl. run_cases.
  all: eexists _, _; split; [reflexivity|]; rows_simpl.
  all: repeat split; auto.
Qed.

(** The result of the analysis is what a completed row of the run holds. *)
Lemma completed_row_result rt env request d id now result row :
  insert_attempt env = inr (id, now) ->
  GeminiService.analysis_attempt rt (gemini_post env) = inr result ->
  row ∈ row_trace rt env request d id ->
  Attempt.processingStatus row = completed ->
  Attempt.analysisResult row = result /\
  Attempt.overallScore row = Analysis.overallScore result.
Proof.
  intros Hi Ha Hin Hst.
  destruct (row_trace_shape rt env request d id now Hi);
    split_elem Hin; try discriminate Hst.
  all: match goal with
       | H : GeminiService.analysis_attempt _ _ = inr _ |- _ =>
           rewrite Ha in H; injection H as <-
       end.
  all: split; reflexivity.
Qed.

(** The parsed result of the answer that gives its score in words. *)
Lemma worded_score_result rt :
  JSON_parse rt Sample.worded_score_answer = Some Sample.worded_score_value ->
  StringToNumber rt "high" = NaN ->
  Analysis.overallScore
    (GeminiService.parseAnalysisResult rt Sample.worded_score_answer) = NaN.
Proof.
  intros Hparse Hnumber.
  assert (Hmatch : GeminiService.match_braces Sample.worded_score_answer
                   = Some Sample.worded_score_answer) by reflexivity.
  unfold GeminiService.parseAnalysisResult. rewrite Hmatch, Hparse.
  unfold Sample.worded_score_value, GeminiService.structured_result,
    GeminiService.clamp_score.
  cbn [get_property assoc String.eqb Ascii.eqb Bool.eqb or_zero truthy is_empty
       negb ToNumber].
  rewrite Hnumber. reflexivity.
Qed.

(** C1: the agreement of the two scores fails for a run in which every call
    is served and the model gives [overallScore] as a string that is no
    numeral: the parser lets [NaN] through, the response is [completed], its
    [overallScore] and the [overallScore] of its [analysisResult] are both
    [NaN], and [NaN] is numerically equal to nothing. *)
Theorem nan_score_breaks_agreement rt env request d id now resp parts others :
  JSON_parse rt Sample.worded_score_answer = Some Sample.worded_score_value ->
  StringToNumber rt "high" = NaN ->
  insert_attempt env = inr (id, now) ->
  mark_processing env = None ->
  pinata_post env = inr resp ->
  store_ipfs env = None ->
  find_user_level env = None ->
  gemini_post env =
    inr {| GeminiService.candidates :=
             Some ((Sample.worded_score_answer :: parts) :: others) |} ->
  store_result env = None ->
  reread_attempt env = None ->
  find_user_stats env = None ->
  store_stats env = None ->
  exists response w',
    analyzePronunciation rt env request (start d) = (inr response, w') /\
    Response.processingStatus response = completed /\
    Response.overallScore response = NaN /\
    Analysis.overallScore (Response.analysisResult response) = NaN /\
    ~ numerically_equal
        (Response.overallScore response)
        (Analysis.overallScore (Response.analysisResult response)).
Proof.
  intros Hparse Hnumber Hi Hp Hu Hs Hl Hg Hr Hrr Hfs Hss.
  pose proof (worded_score_result rt Hparse Hnumber) as Hnan.
  assert (Ha : GeminiService.analysis_attempt rt (gemini_post env)
               = inr (GeminiService.parseAnalysisResult rt
                        Sample.worded_score_answer))
    by (rewrite Hg; reflexivity).
  destruct (served_run_outcome rt env request d id now resp _
              Hi Hp Hu Hs Hl Ha Hr Hrr Hfs Hss)
    as (response & w' & Hrun & Hst & Hsame & Hresult & _).
  exists response, w'. split; [exact Hrun|]. split; [exact Hst|].
  rewrite Hsame, Hresult, Hnan. repeat split. intros [].
Qed.

Lemma nan_score_breaks_agreement_witness :
  exists response w',
    analyzePronunciation Sample.runtime_for_worded_score
      Scene.served_worded_score Sample.anonymous_request (start Sample.empty_db)
      = (inr response, w') /\
    Response.processingStatus response = completed /\
    Response.overallScore response = NaN /\
    Analysis.overallScore (Response.analysisResult response) = NaN.
Proof.
  destruct (nan_score_breaks_agreement Sample.runtime_for_worded_score
              Scene.served_worded_score Sample.anonymous_request
              Sample.empty_db "a1" 1000 Sample.pinned [] []
              eq_refl eq_refl eq_refl eq_refl eq_refl eq_refl eq_refl eq_refl
              eq_refl eq_refl eq_refl eq_refl)
    as (response & w' & Hrun & Hst & Hscore & Hresult & _).
  exists response, w'. auto.
Defined.

(** C2: when the upload fails, [analyzePronunciation] raises an error and
    leaves the row [failed], with a non-empty [errorMessage] and with
    [audioFileUrl] and [ipfsHash] still empty.  The run reached the upload
    (steps 1 and 2 were served) and the database serves the write of the
    handler. *)
Theorem upload_failure_marks_failed rt env request d id now e :
  insert_attempt env = inr (id, now) ->
  mark_processing env = None ->
  pinata_post env = inl e ->
  mark_failed env = None ->
  exists raised w' row message,
    analyzePronunciation rt env request (start d) = (inl raised, w') /\
    raised = JsError ("Failed to upload audio file: IPFS upload failed: "
                      +:+ message_in_template e) /\
    attempts (db w') !! id = Some row /\
    row = marked_failed raised (row_processing request id now) /\
    Attempt.processingStatus row = failed /\
    Attempt.errorMessage row = Some message /\
    message <> EmptyString /\
    Attempt.audioFileUrl row = EmptyString /\
    Attempt.ipfsHash row = EmptyString.
Proof.
  intros Hi Hp Hu Hf.
  unfold_run. rewrite Hi, Hp, Hu, Hf. run_simpl.
  eexists _, _, _, _. split; [reflexivity|]. split; [reflexivity|].
  rows_simpl. split; [reflexivity|]. split; [reflexivity|].
  cbn. repeat split. discriminate.
Qed.

(** When the database rejects the write of the handler as well, the error of
    that write is raised instead and the row stays as it was. *)
Lemma handler_write_rejected rt env request d id now e e' :
  insert_attempt env = inr (id, now) ->
  mark_processing env = None ->
  pinata_post env = inl e ->
  mark_failed env = Some e' ->
  exists w',
    analyzePronunciation rt env request (start d) = (inl e', w') /\
    attempts (db w') !! id = Some (row_processing request id now).
Proof.
  intros Hi Hp Hu Hf.
  unfold_run. rewrite Hi, Hp, Hu, Hf. run_simpl.
  eexists. split; [reflexivity|]. rows_simpl. reflexivity.
Qed.

Lemma upload_failure_marks_failed_witness :
  exists raised w' row,
    analyzePronunciation Sample.runtime Sample.upload_fails
      Sample.anonymous_request (start Sample.empty_db) = (inl raised, w') /\
    attempts (db w') !! "a1" = Some row /\
    Attempt.processingStatus row = failed /\
    Attempt.audioFileUrl row = EmptyString /\
    Attempt.ipfsHash row = EmptyString.
Proof.
  destruct (upload_failure_marks_failed Sample.runtime Sample.upload_fails
              Sample.anonymous_request Sample.empty_db "a1" 1000
              (JsError "timeout of 30000ms exceeded")
              eq_refl eq_refl eq_refl eq_refl)
    as (raised & w' & row & message & Hrun & _ & Hrow & _ & Hst & _ & _ & Hurl & Hhash).
  exists raised, w', row. auto.
Defined.

Ltac split_index i :=
  destruct i as [|[|[|[|[|[|i]]]]]]; simplify_eq/=.

(** C3, as amended: [audioFileUrl] and [ipfsHash] are written by step 4, after
    the status has become [processing], so in every state of the row they are
    either both still empty or hold the public address (which is never empty)
    and the hash returned by the upload; a [completed] row holds them; and
    once written they are changed by no later write of the run, the one of the
    failure handler included. *)
Theorem upload_fields_written_once rt env request d id now :
  insert_attempt env = inr (id, now) ->
  (forall row,
     row ∈ row_trace rt env request d id ->
     (Attempt.audioFileUrl row = EmptyString /\ Attempt.ipfsHash row = EmptyString) \/
     (exists resp,
        pinata_post env = inr resp /\
        Attempt.audioFileUrl row = getPublicUrl (gatewayUrl env) (IpfsHash resp) /\
        Attempt.audioFileUrl row <> EmptyString /\
        Attempt.ipfsHash row = IpfsHash resp)) /\
  (forall row,
     row ∈ row_trace rt env request d id ->
     Attempt.processingStatus row = completed ->
     Attempt.audioFileUrl row <> EmptyString /\
     exists resp, pinata_post env = inr resp /\ Attempt.ipfsHash row = IpfsHash resp) /\
  (forall (i j : nat) earlier later,
     (i < j)%nat ->
     row_trace rt env request d id !! i = Some earlier ->
     row_trace rt env request d id !! j = Some later ->
     (Attempt.audioFileUrl earlier <> EmptyString ->
      Attempt.audioFileUrl later = Attempt.audioFileUrl earlier) /\
     (Attempt.ipfsHash earlier <> EmptyString ->
      Attempt.ipfsHash later = Attempt.ipfsHash earlier)).
Proof.
  intros Hi. pose proof (row_trace_shape rt env request d id now Hi) as Hshape.
  revert Hshape. generalize (row_trace rt env request d id). intros trace Hshape.
  assert (Hurl : forall h, getPublicUrl (gatewayUrl env) h <> EmptyString)
    by (intros h; discriminate).
  split; [|split].
  - intros row Hin.
    destruct Hshape; split_elem Hin;
      solve [ left; split; reflexivity
            | right; eexists; split; [eassumption|];
              repeat split; apply Hurl ].
  - intros row Hin Hst.
    destruct Hshape; split_elem Hin; try discriminate Hst;
      (split; [apply Hurl|eexists; split; [eassumption|reflexivity]]).
  - intros i j earlier later Hlt Hearlier Hlater.
    destruct Hshape; split_index i; split_index j; try lia;
      split; intros Hset; solve [reflexivity | contradiction].
Qed.

Lemma upload_fields_written_once_witness :
  exists earlier later,
    row_trace Sample.runtime Sample.analysis_fails Sample.anonymous_request
      Sample.empty_db "a1" !! 2%nat = Some earlier /\
    row_trace Sample.runtime Sample.analysis_fails Sample.anonymous_request
      Sample.empty_db "a1" !! 3%nat = Some later /\
    Attempt.processingStatus later = failed /\
    Attempt.audioFileUrl later = Attempt.audioFileUrl earlier /\
    Attempt.ipfsHash later = Attempt.ipfsHash earlier.
Proof.
  eexists _, _. split; [reflexivity|]. split; [reflexivity|].
  split; [reflexivity|].
  destruct (proj2 (proj2 (upload_fields_written_once Sample.runtime
                            Sample.analysis_fails Sample.anonymous_request
                            Sample.empty_db "a1" 1000 eq_refl))
              2%nat 3%nat _ _ (le_n 3) eq_refl eq_refl) as [Hurl Hhash].
  split; [apply Hurl|apply Hhash]; discriminate.
Defined.

(** C3, as stated, fails: after a rejected upload the row is first
    [processing] and then [failed], with both fields empty. *)
Lemma processing_row_without_upload :
  exists during after,
    row_trace Sample.runtime Sample.upload_fails Sample.anonymous_request
      Sample.empty_db "a1" !! 1%nat = Some during /\
    row_trace Sample.runtime Sample.upload_fails Sample.anonymous_request
      Sample.empty_db "a1" !! 2%nat = Some after /\
    Attempt.processingStatus during = processing /\
    Attempt.audioFileUrl during = EmptyString /\
    Attempt.ipfsHash during = EmptyString /\
    Attempt.processingStatus after = failed /\
    Attempt.audioFileUrl after = EmptyString /\
    Attempt.ipfsHash after = EmptyString.
Proof.
  eexists _, _. split; [vm_compute; reflexivity|].
  split; [vm_compute; reflexivity|]. repeat split.
Qed.

(** C4, as amended: a [failed] row is changed by no later write of the run;
    a [completed] row is changed only by the failure handler, which marks it
    [failed] when the re-read of step 6 or the statistics update of step 7
    throws. *)
Theorem status_after_terminal rt env request d id now :
  insert_attempt env = inr (id, now) ->
  forall (i j : nat) earlier later,
    (i < j)%nat ->
    row_trace rt env request d id !! i = Some earlier ->
    row_trace rt env request d id !! j = Some later ->
    (Attempt.processingStatus earlier = failed ->
     Attempt.processingStatus later = failed) /\
    (Attempt.processingStatus earlier = completed ->
     later = earlier \/
     exists e, later = marked_failed e earlier /\
               Attempt.processingStatus later = failed).
Proof.
  intros Hi i j earlier later Hlt Hearlier Hlater.
  pose proof (row_trace_shape rt env request d id now Hi) as Hshape.
  revert Hshape Hearlier Hlater.
  generalize (row_trace rt env request d id). intros trace Hshape.
  destruct Hshape; intros; split_index i; split_index j; try lia;
    split; intros Hst; try discriminate Hst;
    solve [ left; reflexivity | right; eexists; split; reflexivity ].
Qed.

Lemma status_after_terminal_witness :
  exists earlier later,
    row_trace Sample.runtime Sample.statistics_fail Sample.learner_request
      Sample.db_with_learner "a1" !! 3%nat = Some earlier /\
    row_trace Sample.runtime Sample.statistics_fail Sample.learner_request
      Sample.db_with_learner "a1" !! 4%nat = Some later /\
    (later = earlier \/
     exists e, later = marked_failed e earlier /\
               Attempt.processingStatus later = failed).
Proof.
  eexists _, _. split; [reflexivity|]. split; [reflexivity|].
  apply (proj2 (status_after_terminal Sample.runtime Sample.statistics_fail
                  Sample.learner_request Sample.db_with_learner "a1" 1000
                  eq_refl 3%nat 4%nat _ _ (le_n 4) eq_refl eq_refl)).
  reflexivity.
Defined.

(** C4, as stated, fails: when the update of the user is rejected in step 7,
    the row that step 6 had set to [completed] is set to [failed]. *)
Lemma completed_row_marked_failed :
  exists earlier later,
    row_trace Sample.runtime Sample.statistics_fail Sample.learner_request
      Sample.db_with_learner "a1" !! 3%nat = Some earlier /\
    row_trace Sample.runtime Sample.statistics_fail Sample.learner_request
      Sample.db_with_learner "a1" !! 4%nat = Some later /\
    Attempt.processingStatus earlier = completed /\
    Attempt.processingStatus later = failed.
Proof.
  eexists _, _. split; [vm_compute; reflexivity|].
  split; [vm_compute; reflexivity|]. split; reflexivity.
Qed.

(** The write of the failure handler changes the status and the message and
    nothing else. *)
Lemma marked_failed_frame e row :
  same_but_status (marked_failed e row) row /\
  Attempt.processingStatus (marked_failed e row) = failed.
Proof. repeat split. Qed.

(** C8: when the upload succeeded (and returned a content hash) and step 5
    then fails, the row ends [failed] and still holds the address and the hash
    written after the upload: the handler changed the status and the message
    only.  Steps 1 to 4 and the write of the handler are served. *)
Theorem analysis_failure_keeps_upload rt env request d id now resp :
  insert_attempt env = inr (id, now) ->
  mark_processing env = None ->
  pinata_post env = inr resp ->
  IpfsHash resp <> EmptyString ->
  store_ipfs env = None ->
  analysis_step_fails rt env request ->
  mark_failed env = None ->
  exists raised w' row,
    analyzePronunciation rt env request (start d) = (inl raised, w') /\
    attempts (db w') !! id = Some row /\
    row = marked_failed raised (row_uploaded env request id now resp) /\
    same_but_status row (row_uploaded env request id now resp) /\
    Attempt.processingStatus row = failed /\
    Attempt.audioFileUrl row = getPublicUrl (gatewayUrl env) (IpfsHash resp) /\
    Attempt.audioFileUrl row <> EmptyString /\
    Attempt.ipfsHash row = IpfsHash resp /\
    Attempt.ipfsHash row <> EmptyString.
Proof.
  intros Hi Hp Hu Hhash Hs Hfail Hf.
  unfold_run. rewrite Hi, Hp, Hu, Hs, Hf. run_simpl.
  destruct Hfail as [(uid & e & Huid & Hl) | (e & Ha)].
  - rewrite Huid, Hl. run_simpl.
    eexists _, _, _. split; [reflexivity|]. rows_simpl.
    split; [reflexivity|]. split; [reflexivity|].
    repeat split; solve [discriminate | assumption].
  - rewrite Ha. run_cases.
    all: eexists _, _, _; (split; [reflexivity|]); rows_simpl.
    all: split; [reflexivity|]; split; [reflexivity|].
    all: repeat split; solve [discriminate | assumption].
Qed.

Lemma analysis_failure_keeps_upload_witness :
  exists raised w' row,
    analyzePronunciation Sample.runtime Sample.analysis_fails
      Sample.anonymous_request (start Sample.empty_db) = (inl raised, w') /\
    attempts (db w') !! "a1" = Some row /\
    Attempt.processingStatus row = failed /\
    Attempt.ipfsHash row = "QmHash".
Proof.
  assert (Hhash : IpfsHash Sample.pinned <> EmptyString) by discriminate.
  destruct (analysis_failure_keeps_upload Sample.runtime Sample.analysis_fails
              Sample.anonymous_request Sample.empty_db "a1" 1000 Sample.pinned
              eq_refl eq_refl eq_refl Hhash eq_refl
              (or_intror (ex_intro _ _ eq_refl)) eq_refl)
    as (raised & w' & row & Hrun & Hrow & _ & _ & Hst & _ & _ & Hh & _).
  exists raised, w', row. auto.
Defined.

(** C5: with a user identifier supplied, when steps 1 to 6 succeed and the
    statistics update of step 7 throws [e] (its lookup is rejected, or the
    user exists and its update is rejected), [analyzePronunciation] raises [e]
    and the row ends [failed], although it holds the result of the analysis.
    The write of the handler is served. *)
Theorem statistics_failure_marks_failed rt env request d id now resp result uid e :
  supplied (Request.userId request) = Some uid ->
  insert_attempt env = inr (id, now) ->
  mark_processing env = None ->
  pinata_post env = inr resp ->
  store_ipfs env = None ->
  find_user_level env = None ->
  GeminiService.analysis_attempt rt (gemini_post env) = inr result ->
  store_result env = None ->
  reread_attempt env = None ->
  (find_user_stats env = Some e \/
   (find_user_stats env = None /\ is_Some (users d !! uid) /\
    store_stats env = Some e)) ->
  mark_failed env = None ->
  exists w' row,
    analyzePronunciation rt env request (start d) = (inl e, w') /\
    attempts (db w') !! id = Some row /\
    row = marked_failed e (row_completed env request id now resp result) /\
    Attempt.processingStatus row = failed /\
    Attempt.errorMessage row = supplied (Some (error_text e)) /\
    Attempt.analysisResult row = result /\
    Attempt.overallScore row = Analysis.overallScore result /\
    users (db w') = users d.
Proof.
  intros Huid Hi Hp Hu Hs Hl Ha Hr Hrr Hstats Hf.
  unfold_run. rewrite Huid, Hi, Hp, Hu, Hs, Hl, Ha, Hr, Hrr, Hf. run_simpl.
  destruct Hstats as [Hfs | (Hfs & [u Hu'] & Hss)]; rewrite Hfs; run_simpl.
  - run_cases.
    all: eexists _, _; (split; [reflexivity|]); rows_simpl.
    all: repeat split.
    all: cbn; destruct (is_empty (error_text e)); reflexivity.
  - rewrite Hss. run_cases; try congruence.
    all: eexists _, _; (split; [reflexivity|]); rows_simpl.
    all: repeat split.
    all: cbn; destruct (is_empty (error_text e)); reflexivity.
Qed.

Lemma statistics_failure_marks_failed_witness :
  exists w' row,
    analyzePronunciation Sample.runtime Sample.statistics_fail
      Sample.learner_request (start Sample.db_with_learner) =
      (inl (JsError "connection terminated"), w') /\
    attempts (db w') !! "a1" = Some row /\
    Attempt.processingStatus row = failed.
Proof.
  destruct (statistics_failure_marks_failed Sample.runtime Sample.statistics_fail
              Sample.learner_request Sample.db_with_learner "a1" 1000
              Sample.pinned (GeminiService.fallback_result "Good tones, clear finals.")
              "u1" (JsError "connection terminated")
              eq_refl eq_refl eq_refl eq_refl eq_refl eq_refl eq_refl eq_refl
              eq_refl
              (or_intror (conj eq_refl (conj (ex_intro _ Sample.learner eq_refl) eq_refl)))
              eq_refl)
    as (w' & row & Hrun & Hrow & _ & Hst & _).
  exists w', row. auto.
Defined.

(** C10: with a user identifier supplied for which the table holds no user,
    the statistics update returns normally and changes no table, and the run,
    in which steps 1 to 6 and the lookup of step 7 are served, returns the
    [completed] attempt and leaves the table of users as it was. *)
Theorem missing_user_is_skipped rt env request d id now resp result uid :
  supplied (Request.userId request) = Some uid ->
  users d !! uid = None ->
  insert_attempt env = inr (id, now) ->
  mark_processing env = None ->
  pinata_post env = inr resp ->
  store_ipfs env = None ->
  find_user_level env = None ->
  GeminiService.analysis_attempt rt (gemini_post env) = inr result ->
  store_result env = None ->
  reread_attempt env = None ->
  find_user_stats env = None ->
  (forall w,
     users (db w) !! uid = None ->
     updateUserStatistics (find_user_stats env) (store_stats env) uid
       (Analysis.overallScore result) w = (inr tt, w)) /\
  exists response w',
    analyzePronunciation rt env request (start d) = (inr response, w') /\
    Response.processingStatus response = completed /\
    attempts (db w') !! id = Some (row_completed env request id now resp result) /\
    Attempt.processingStatus (row_completed env request id now resp result) = completed /\
    users (db w') = users d.
Proof.
  intros Huid Hnone Hi Hp Hu Hs Hl Ha Hr Hrr Hfs. split.
  - intros w Hw. unfold updateUserStatistics, bind, Repository.findOne_user, awaited, ret.
    rewrite Hfs, Hw. reflexivity.
  - unfold_run. rewrite Huid, Hi, Hp, Hu, Hs, Hl, Ha, Hr, Hrr, Hfs. run_simpl.
    run_cases; try congruence.
    all: eexists _, _; (split; [reflexivity|]); rows_simpl.
    all: repeat split.
Qed.

Lemma missing_user_is_skipped_witness :
  exists response w',
    analyzePronunciation Sample.runtime Sample.served Sample.learner_request
      (start Sample.empty_db) = (inr response, w') /\
    Response.processingStatus response = completed /\
    users (db w') = users Sample.empty_db.
Proof.
  destruct (proj2 (missing_user_is_skipped Sample.runtime Sample.served
              Sample.learner_request Sample.empty_db "a1" 1000
              Sample.pinned (GeminiService.fallback_result "Good tones, clear finals.")
              "u1" eq_refl eq_refl eq_refl eq_refl eq_refl eq_refl eq_refl
              eq_refl eq_refl eq_refl eq_refl))
    as (response & w' & Hrun & Hst & _ & _ & Husers).
  exists response, w'. auto.
Defined.

(** ** The paginated listing *)

Section Pagination.

#[local] Instance newest_first_trans : Transitive Repository.newest_first.
Proof. unfold Repository.newest_first. intros a b c Hab Hbc. lia. Qed.

#[local] Instance newest_first_total : Total Repository.newest_first.
Proof. unfold Repository.newest_first. intros a b. lia. Qed.

(** In a list sorted newest first, a later entry is no newer than an earlier
    one. *)
Lemma newest_first_by_index (rows : list PronunciationAttempt) :
  StronglySorted Repository.newest_first rows ->
  forall (i j : nat) a b,
    (i <= j)%nat -> rows !! i = Some a -> rows !! j = Some b ->
    Attempt.createdAt b <= Attempt.createdAt a.
Proof.
  induction 1 as [|x rows Hsorted IH Hall]; intros i j a b Hij Ha Hb.
  - by rewrite lookup_nil in Ha.
  - destruct i as [|i], j as [|j]; simplify_eq/=; try lia.
    + rewrite Forall_forall in Hall. apply (Hall b).
      by eapply list_elem_of_lookup_2.
    + apply (IH i j); [lia|assumption|assumption].
Qed.

(** The rows that the query selects are the rows of the user in the table,
    each once, the newest first. *)
Lemma rows_of_user_selected userId d :
  rows_of userId d (Repository.rows_of_user userId d).
Proof.
  unfold rows_of, Repository.rows_of_user.
  set (selected := fun a : PronunciationAttempt => Attempt.userId a = Some userId).
  set (pairs := filter (fun p : string * PronunciationAttempt => selected p.2)
                       (map_to_list (attempts d))).
  assert (Hvalues : filter selected ((map_to_list (attempts d)).*2) = pairs.*2).
  { unfold pairs. induction (map_to_list (attempts d)) as [|[k a] l IH];
      [reflexivity|].
    cbn [fmap list_fmap snd]. rewrite !filter_cons. cbn [snd].
    destruct (decide (selected a)); [cbn; f_equal|]; exact IH. }
  rewrite Hvalues.
  assert (Hperm : Permutation (merge_sort Repository.newest_first (pairs.*2))
                              (map snd pairs)) by apply merge_sort_Permutation.
  apply Permutation_map_inv in Hperm as (sorted & Hrows & Hsame).
  fold (fmap (M := list) (@snd string PronunciationAttempt)) in Hrows.
  assert (Hpair : forall k a, (k, a) ∈ sorted <->
                              attempts d !! k = Some a /\ selected a).
  { intros k a. rewrite <- Hsame. unfold pairs.
    rewrite list_elem_of_filter, elem_of_map_to_list. cbn [snd]. tauto. }
  split.
  - exists (sorted.*1). split; [|split].
    + rewrite <- Hsame. unfold pairs.
      eapply sublist_NoDup; [apply (NoDup_fst_map_to_list (attempts d))|].
      apply fmap_sublist, sublist_filter.
    + intros k. rewrite <- list_elem_of_In, list_elem_of_fmap. split.
      * intros ([k' a] & -> & Hin). exists a. by apply Hpair.
      * intros (a & Hk & Ha). exists (k, a). split; [reflexivity|]. by apply Hpair.
    + rewrite Hrows. apply Forall2_fmap, Forall_Forall2_diag, Forall_forall.
      intros [k a] Hin. by apply Hpair.
  - apply newest_first_by_index, StronglySorted_merge_sort; apply _.
Qed.

(** [Math.ceil(total / limit)] on a count and a positive limit is the least
    number of pages of [limit] rows that hold [total] rows. *)
Lemma ceil_quotient total limit :
  0 < limit ->
  exists k,
    Math_ceil (div (Num (inject_Z total)) (Num (inject_Z limit)))
      = Num (inject_Z k) /\
    (k - 1) * limit < total <= k * limit.
Proof.
  intros Hl.
  assert (Hnz : ~ (inject_Z limit == 0)%Q).
  { unfold Qeq. simpl. lia. }
  assert (Hb : Qeq_bool (inject_Z limit) 0 = false).
  { apply not_true_is_false. intros H. by apply Qeq_bool_eq in H. }
  unfold div. rewrite Hb. cbn [Math_ceil].
  set (x := (inject_Z total / inject_Z limit)%Q).
  exists (Qceiling x). split; [reflexivity|].
  assert (Hx : (x * inject_Z limit == inject_Z total)%Q)
    by (unfold x; field; exact Hnz).
  assert (Hpos : (0 < inject_Z limit)%Q).
  { change 0%Q with (inject_Z 0). by rewrite <- Zlt_Qlt. }
  split.
  - rewrite Zlt_Qlt, inject_Z_mult, <- Hx.
    apply Qmult_lt_compat_r; [exact Hpos|]. apply Qceiling_lt.
  - rewrite Zle_Qle, inject_Z_mult, <- Hx.
    apply Qmult_le_compat_r; [apply Qle_ceiling|by apply Qlt_le_weak].
Qed.

Lemma mapToResponse_shows a : shows (mapToResponse a) a.
Proof. repeat split. Qed.

(** C9: for a page number from 1 on and a positive limit, the listing is
    served from the rows of the user in the table, each once and the newest
    first: entry [i] of the page shows, field by field, the row at position
    [(page - 1) * limit + i] of that sequence, the page holds the rows that
    remain after the first [(page - 1) * limit], at most [limit] of them,
    [total] is the number of rows of the user and [totalPages] is
    [ceil(total / limit)]; page 2 with limit 10 over 15 attempts holds 5
    attempts out of 2 pages. *)
Theorem attempts_page userId page limit w :
  1 <= page ->
  1 <= limit ->
  exists result rows,
    getUserPronunciationAttempts None userId page limit w = (inr result, w) /\
    rows_of userId (db w) rows /\
    total result = Z.of_nat (length rows) /\
    Z.of_nat (length (page_attempts result)) =
      Z.min limit (Z.max 0 (total result - (page - 1) * limit)) /\
    (forall (i : nat) r,
       page_attempts result !! i = Some r ->
       exists a,
         rows !! (Z.to_nat ((page - 1) * limit) + i)%nat = Some a /\ shows r a) /\
    (exists k, totalPages result = Num (inject_Z k) /\
               (k - 1) * limit < total result <= k * limit) /\
    (page = 2 -> limit = 10 -> total result = 15 ->
     length (page_attempts result) = 5%nat /\ totalPages result = Num 2).
Proof.
  intros Hpage Hlimit.
  pose proof (rows_of_user_selected userId (db w)) as Hrows.
  unfold getUserPronunciationAttempts, Repository.findAndCount, bind, awaited, ret.
  cbn [fst snd].
  set (rows := Repository.rows_of_user userId (db w)) in *.
  destruct (ceil_quotient (Z.of_nat (length rows)) limit ltac:(lia))
    as (k & Hk & Hbounds).
  assert (Hlen : Z.of_nat (length (map mapToResponse
                   (firstn (Z.to_nat limit)
                      (skipn (Z.to_nat ((page - 1) * limit)) rows)))) =
                 Z.min limit (Z.max 0 (Z.of_nat (length rows) - (page - 1) * limit))).
  { rewrite length_map, length_firstn, length_skipn. nia. }
  eexists _, rows. split; [reflexivity|]. cbn [page_attempts total totalPages].
  split; [exact Hrows|]. split; [reflexivity|]. split; [exact Hlen|].
  split; [|split; [eauto|]].
  - intros i r Hr. apply list_lookup_fmap_Some in Hr as (a & -> & Ha).
    apply lookup_take_Some in Ha as [Ha _]. rewrite lookup_drop in Ha.
    exists a. split; [exact Ha|apply mapToResponse_shows].
  - intros -> -> Htotal. split.
    + apply Nat2Z.inj. rewrite Hlen, Htotal. reflexivity.
    + rewrite Hk. f_equal. rewrite Htotal in Hbounds.
      assert (k = 2) as -> by lia. reflexivity.
Qed.

Lemma attempts_page_witness :
  exists result,
    getUserPronunciationAttempts None "u1" 2 10 (start Scene.fifteen_attempts)
      = (inr result, start Scene.fifteen_attempts) /\
    map Response.id (page_attempts result) = ["a05"; "a04"; "a03"; "a02"; "a01"] /\
    total result = 15 /\
    totalPages result = Num 2.
Proof.
  destruct (attempts_page "u1" 2 10 (start Scene.fifteen_attempts)
              (Zle_bool_imp_le 1 2 eq_refl) (Zle_bool_imp_le 1 10 eq_refl))
    as (result & rows & Hrun & _ & _ & _ & _ & _ & Hfifteen).
  assert (Hread :
    match (getUserPronunciationAttempts None "u1" 2 10
             (start Scene.fifteen_attempts)).1 with
    | inr r => map Response.id (page_attempts r)
                 = ["a05"; "a04"; "a03"; "a02"; "a01"] /\
               total r = 15
    | inl _ => False
    end) by (vm_compute; split; reflexivity).
  rewrite Hrun in Hread. destruct Hread as [Hids Htotal].
  exists result. split; [exact Hrun|]. split; [exact Hids|]. split; [exact Htotal|].
  exact (proj2 (Hfifteen eq_refl eq_refl Htotal)).
Defined.

End Pagination.

(** * Further properties *)

(** ** Length and cut of a string *)

Lemma code_units_of_byte k :
  (k < 256)%N ->
  code_units (ascii_of_N k) =
    if (k <? 128)%N then 1%nat
    else if (k <? 192)%N then 0%nat
    else if (k <? 240)%N then 1%nat
    else 2%nat.
Proof.
  intros Hk. unfold code_units, nat_of_ascii. rewrite N_ascii_embedding by exact Hk.
  repeat match goal with
         | |- context [(?a <? ?b)%nat] => destruct (Nat.ltb_spec a b)
         | |- context [(?a <? ?b)%N] => destruct (N.ltb_spec a b)
         end; solve [reflexivity | lia].
Qed.

Lemma high_surrogate_length b1 rest :
  String_length (high_surrogate b1 rest) = 1%nat.
Proof.
  unfold high_surrogate.
  set (b2 := match rest with String c _ => N_of_ascii c | EmptyString => 128%N end).
  set (b3 := match rest with String _ (String c _) => N_of_ascii c | _ => 128%N end).
  set (plane := ((N_of_ascii b1 mod 8) * 4 + (b2 / 16) mod 4)%N).
  set (w := (((plane - 1) mod 16) * 64 + (b2 mod 16) * 4 + (b3 / 16) mod 4)%N).
  assert (Hw : (w < 1024)%N).
  { unfold w.
    pose proof (N.mod_upper_bound (plane - 1) 16 ltac:(lia)).
    pose proof (N.mod_upper_bound b2 16 ltac:(lia)).
    pose proof (N.mod_upper_bound (b3 / 16) 4 ltac:(lia)). lia. }
  assert (Hhi : (w / 64 < 16)%N) by (apply N.Div0.div_lt_upper_bound; lia).
  assert (Hlo : (w mod 64 < 64)%N) by (apply N.mod_upper_bound; lia).
  clearbody w. clear b2 b3 plane.
  generalize dependent (w / 64)%N. generalize dependent (w mod 64)%N.
  intros lo Hlo hi Hhi. cbn [String_length].
  rewrite !code_units_of_byte by lia.
  repeat match goal with
         | |- context [(?a <? ?b)%N] => destruct (N.ltb_spec a b)
         end; solve [reflexivity | lia].
Qed.

Lemma substring_from_start_length n s :
  String_length (substring_from_start n s) = Nat.min n (String_length s).
Proof.
  revert n. induction s as [|c s IH]; intros n; cbn [substring_from_start String_length].
  - by rewrite Nat.min_0_r.
  - destruct (code_units c) as [|[|k]] eqn:Hc.
    + cbn [String_length]. rewrite Hc, IH. reflexivity.
    + destruct n as [|m]; [reflexivity|].
      cbn [String_length]. rewrite Hc, IH. reflexivity.
    + assert (k = 0%nat) as ->.
      { unfold code_units in Hc.
        repeat match type of Hc with
               | context [(?a <? ?b)%nat] => destruct (a <? b)%nat
               end; congruence. }
      destruct n as [|[|m]]; [reflexivity| |].
      * by rewrite high_surrogate_length.
      * cbn [String_length]. rewrite Hc, IH. reflexivity.
Qed.

Lemma substring_from_start_all n s :
  (String_length s <= n)%nat -> substring_from_start n s = s.
Proof.
  revert n. induction s as [|c s IH]; intros n; cbn [substring_from_start String_length];
    [reflexivity|].
  intros Hn. destruct (code_units c) as [|[|k]] eqn:Hc.
  - by rewrite IH.
  - destruct n as [|m]; [lia|]. rewrite IH; [reflexivity|lia].
  - destruct n as [|[|m]]; [lia|lia|]. rewrite IH; [reflexivity|lia].
Qed.

(** ** White space *)

Lemma is_white_space_spec character :
  is_white_space character = true <-> In character white_space_characters.
Proof.
  unfold is_white_space. rewrite existsb_exists. split.
  - intros (ws & Hin & Heq). apply String.eqb_eq in Heq. by subst.
  - intros Hin. exists character. split; [assumption|apply String.eqb_refl].
Qed.

(** The characters that [trim] removes are the encodings of the code points
    of white space. *)
Lemma white_space_encodings :
  white_space_characters = map utf8 white_space_code_points.
Proof. reflexivity. Qed.

Lemma white_space_character character :
  In character white_space_characters <->
  exists cp, In cp white_space_code_points /\ character = utf8 cp.
Proof.
  rewrite white_space_encodings, in_map_iff. split.
  - intros (cp & <- & Hin). eauto.
  - intros (cp & Hin & ->). eauto.
Qed.

Lemma trimStart_white_space character s :
  In character white_space_characters ->
  trimStart (character +:+ s) = trimStart s.
Proof.
  intros Hin. unfold white_space_characters in Hin. cbn in Hin.
  repeat (destruct Hin as [<- | Hin]; [reflexivity|]). contradiction.
Qed.

Lemma trimStart_empty s :
  trimStart s = EmptyString <-> white_space_only s.
Proof.
  split.
  - remember (String.length s) as n eqn:Hn.
    assert (Hle : (String.length s <= n)%nat) by lia. clear Hn.
    revert s Hle. induction n as [|n IH]; intros s Hle.
    { destruct s; [constructor|simpl in Hle; lia]. }
    destruct s as [|c1 r1]; [constructor|].
    cbn [trimStart].
    destruct (is_white_space (String c1 EmptyString)) eqn:H1.
    { intros Ht. apply is_white_space_spec, white_space_character in H1.
      destruct H1 as (cp & Hcp & Hc).
      change (String c1 r1) with (String c1 EmptyString +:+ r1). rewrite Hc.
      apply (white_space_more cp r1 Hcp).
      apply IH; [simpl in Hle; lia|exact Ht]. }
    destruct r1 as [|c2 r2]; [discriminate|].
    destruct (is_white_space (String c1 (String c2 EmptyString))) eqn:H2.
    { intros Ht. apply is_white_space_spec, white_space_character in H2.
      destruct H2 as (cp & Hcp & Hc).
      change (String c1 (String c2 r2))
        with (String c1 (String c2 EmptyString) +:+ r2). rewrite Hc.
      apply (white_space_more cp r2 Hcp).
      apply IH; [simpl in Hle; lia|exact Ht]. }
    destruct r2 as [|c3 r3]; [discriminate|].
    destruct (is_white_space (String c1 (String c2 (String c3 EmptyString)))) eqn:H3;
      [|discriminate].
    intros Ht. apply is_white_space_spec, white_space_character in H3.
    destruct H3 as (cp & Hcp & Hc).
    change (String c1 (String c2 (String c3 r3)))
      with (String c1 (String c2 (String c3 EmptyString)) +:+ r3). rewrite Hc.
    apply (white_space_more cp r3 Hcp).
    apply IH; [simpl in Hle; lia|exact Ht].
  - induction 1 as [|cp s Hin _ IH]; [reflexivity|].
    rewrite trimStart_white_space; [exact IH|].
    apply white_space_character. eauto.
Qed.

Lemma trimEnd_empty s : trimEnd s = EmptyString <-> trimStart s = EmptyString.
Proof.
  destruct s as [|c rest]; [by split|].
  cbn [trimEnd]. destruct (trimStart (String c rest)) eqn:E; cbn [is_empty].
  - by split.
  - split; discriminate.
Qed.

Lemma trimStart_idempotent s : trimStart (trimStart s) = trimStart s.
Proof.
  remember (String.length s) as n eqn:Hn.
  assert (Hle : (String.length s <= n)%nat) by lia. clear Hn.
  revert s Hle. induction n as [|n IH]; intros s Hle.
  { destruct s; [reflexivity|simpl in Hle; lia]. }
  destruct s as [|c1 r1]; [reflexivity|].
  cbn [trimStart].
  destruct (is_white_space (String c1 EmptyString)) eqn:H1.
  { apply IH. simpl in Hle; lia. }
  destruct r1 as [|c2 r2].
  { cbn [trimStart]. by rewrite H1. }
  destruct (is_white_space (String c1 (String c2 EmptyString))) eqn:H2.
  { apply IH. simpl in Hle; lia. }
  destruct r2 as [|c3 r3].
  { cbn [trimStart]. by rewrite H1, H2. }
  destruct (is_white_space (String c1 (String c2 (String c3 EmptyString)))) eqn:H3.
  { apply IH. simpl in Hle; lia. }
  cbn [trimStart]. by rewrite H1, H2, H3.
Qed.

(** [trim] leaves nothing exactly when the string is white space only. *)
Lemma trim_empty s : trim s = EmptyString <-> white_space_only s.
Proof.
  unfold trim. rewrite trimEnd_empty, trimStart_idempotent. apply trimStart_empty.
Qed.

(** ** Frame and outcome of a run *)

(** Settles a leaf of [run_cases] whose premise is the outcome of the run. *)
Ltac outcome_leaf :=
  let Heq := fresh "Heq" in
  intros Heq; first [discriminate Heq | injection Heq as <- <-].

(** X1: whatever the collaborators answer, a run changes no attempt row other
    than the one it inserted and no user other than the one the request names. *)
Theorem run_touches_only_its_rows rt env request d :
  (forall id',
     (forall now, insert_attempt env <> inr (id', now)) ->
     attempts (db (analyzePronunciation rt env request (start d)).2) !! id'
       = attempts d !! id') /\
  (forall uid',
     supplied (Request.userId request) <> Some uid' ->
     users (db (analyzePronunciation rt env request (start d)).2) !! uid'
       = users d !! uid').
Proof.
  split.
  - intros id' Hother.
    unfold_run. run_simpl. run_cases.
    all: subst; run_simpl; try reflexivity.
    all: match goal with
         | H : insert_attempt _ = inr (?s, ?z) |- _ =>
             assert (s <> id') by (intros ->; exact (Hother z eq_refl))
         end.
    all: rewrite ?lookup_alter_ne, ?lookup_insert_ne by assumption; reflexivity.
  - intros uid' Hother.
    unfold_run. run_simpl. run_cases.
    all: run_simpl; try reflexivity.
    all: rewrite lookup_alter_ne by congruence; reflexivity.
Qed.

(** A run that returns went through every step: its response is read from the
    completed row, which the tables hold. *)
Lemma returned_run_row rt env request d response w' :
  analyzePronunciation rt env request (start d) = (inr response, w') ->
  exists id now resp result,
    insert_attempt env = inr (id, now) /\
    pinata_post env = inr resp /\
    GeminiService.analysis_attempt rt (gemini_post env) = inr result /\
    response = mapToResponse (row_completed env request id now resp result) /\
    attempts (db w') !! id = Some (row_completed env request id now resp result).
Proof.
  unfold_run. run_simpl. run_cases.
  all: outcome_leaf; subst.
  all: eexists _, _, _, _; repeat (split; [reflexivity|]).
  all: rows_simpl; reflexivity.
Qed.

(** X2: a response that [analyzePronunciation] returns is the image of the row
    that the table holds under its identifier: completed, with the text of the
    request, a non-empty address and no error message. *)
Theorem returned_response_is_stored rt env request d response w' :
  analyzePronunciation rt env request (start d) = (inr response, w') ->
  exists row,
    attempts (db w') !! Response.id response = Some row /\
    response = mapToResponse row /\
    Attempt.processingStatus row = completed /\
    Response.processingStatus response = completed /\
    Response.originalText response = Request.originalText request /\
    Response.audioFileUrl response <> EmptyString /\
    Attempt.errorMessage row = None.
Proof.
  intros Hrun.
  destruct (returned_run_row _ _ _ _ _ _ Hrun)
    as (id & now & resp & result & _ & _ & _ & -> & Hrow).
  eexists. split; [exact Hrow|]. repeat split. discriminate.
Qed.

(** X3: after a run that returned, [getPronunciationAttempt] on the identifier
    of the response returns the same response and writes nothing. *)
Theorem stored_attempt_round_trip rt env request d response w' :
  analyzePronunciation rt env request (start d) = (inr response, w') ->
  getPronunciationAttempt None (Response.id response) w' = (inr response, w').
Proof.
  intros Hrun.
  destruct (returned_run_row _ _ _ _ _ _ Hrun)
    as (id & now & resp & result & _ & _ & _ & -> & Hrow).
  unfold getPronunciationAttempt, Repository.findOne_attempt, bind, awaited, ret.
  cbn [Response.id mapToResponse row_completed row_uploaded row_processing
       row_created Attempt.apply Attempt.generated Attempt.id] in *.
  rewrite Hrow. reflexivity.
Qed.

(** X4: a run that raises leaves the table of users as it was: statistics are
    written by the last step that can fail. *)
Theorem raised_run_leaves_users rt env request d e w' :
  analyzePronunciation rt env request (start d) = (inl e, w') ->
  users (db w') = users d.
Proof.
  unfold_run. run_simpl. run_cases.
  all: outcome_leaf; reflexivity.
Qed.

(** X5: a run that returned for a request naming an existing user has counted
    exactly one attempt for that user and has left the user the row that
    [updateUserStatistics] alone writes, on the tables before the run, for the
    score of the response; no column other than the counter and the average
    has changed. *)
Theorem returned_run_counts_attempt rt env request d response w' uid u :
  analyzePronunciation rt env request (start d) = (inr response, w') ->
  supplied (Request.userId request) = Some uid ->
  users d !! uid = Some u ->
  exists u' w1,
    users (db w') !! uid = Some u' /\
    User.totalAttempts u' = User.totalAttempts u + 1 /\
    updateUserStatistics None None uid (Response.overallScore response) (start d)
      = (inr tt, w1) /\
    users (db w1) !! uid = Some u' /\
    User.id u' = User.id u /\
    User.email u' = User.email u /\
    User.username u' = User.username u /\
    User.displayName u' = User.displayName u /\
    User.level u' = User.level u /\
    User.isActive u' = User.isActive u.
Proof.
  intros Hrun Huid Hu. revert Hrun.
  unfold_run. run_simpl. rewrite Huid. run_simpl. run_cases.
  all: outcome_leaf; try congruence.
  simplify_eq. run_simpl. rewrite lookup_alter_eq.
  match goal with H : users d !! uid = Some _ |- _ => rewrite H end.
  eexists _, _. split; [reflexivity|]. split; [reflexivity|].
  split; [reflexivity|]. run_simpl. rewrite lookup_alter_eq.
  match goal with H : users d !! uid = Some _ |- _ => rewrite H end.
  repeat split.
Qed.

(** X28: when every call of a run is served and the analysis gives a number as
    [overallScore], the response is [completed], its [overallScore] is that
    number and is numerically equal to the [overallScore] of its
    [analysisResult]; and in every state in which the row of the run is
    [completed], its two scores are numerically equal. *)
Theorem successful_run_completed rt env request d id now resp result q :
  insert_attempt env = inr (id, now) ->
  mark_processing env = None ->
  pinata_post env = inr resp ->
  store_ipfs env = None ->
  find_user_level env = None ->
  GeminiService.analysis_attempt rt (gemini_post env) = inr result ->
  Analysis.overallScore result = Num q ->
  store_result env = None ->
  reread_attempt env = None ->
  find_user_stats env = None ->
  store_stats env = None ->
  exists response w',
    analyzePronunciation rt env request (start d) = (inr response, w') /\
    Response.processingStatus response = completed /\
    Response.overallScore response = Num q /\
    numerically_equal
      (Response.overallScore response)
      (Analysis.overallScore (Response.analysisResult response)) /\
    Response.analysisResult response = result /\
    attempts (db w') !! id = Some (row_completed env request id now resp result) /\
    forall row,
      row ∈ row_trace rt env request d id ->
      Attempt.processingStatus row = completed ->
      numerically_equal
        (Attempt.overallScore row)
        (Analysis.overallScore (Attempt.analysisResult row)).
Proof.
  intros Hi Hp Hu Hs Hl Ha Hq Hr Hrr Hfs Hss.
  destruct (served_run_outcome rt env request d id now resp result
              Hi Hp Hu Hs Hl Ha Hr Hrr Hfs Hss)
    as (response & w' & Hrun & Hst & Hsame & Hresult & Hrow & _).
  exists response, w'. split; [exact Hrun|]. split; [exact Hst|].
  split; [by rewrite Hsame, Hresult|].
  split; [rewrite Hsame, Hresult, Hq; apply Qeq_refl|].
  split; [exact Hresult|]. split; [exact Hrow|].
  intros row Hin Hcompleted.
  destruct (completed_row_result rt env request d id now result row
              Hi Ha Hin Hcompleted) as [-> ->].
  rewrite Hq. apply Qeq_refl.
Qed.

Lemma successful_run_completed_witness :
  exists response w',
    analyzePronunciation Sample.runtime Sample.served Sample.learner_request
      (start Sample.db_with_learner) = (inr response, w') /\
    Response.processingStatus response = completed /\
    Response.overallScore response = Num 75 /\
    numerically_equal
      (Response.overallScore response)
      (Analysis.overallScore (Response.analysisResult response)).
Proof.
  destruct (successful_run_completed Sample.runtime Sample.served
              Sample.learner_request Sample.db_with_learner "a1" 1000
              Sample.pinned (GeminiService.fallback_result "Good tones, clear finals.")
              75
              eq_refl eq_refl eq_refl eq_refl eq_refl eq_refl eq_refl eq_refl
              eq_refl eq_refl eq_refl)
    as (response & w' & Hrun & Hst & Hscore & Hequal & _).
  exists response, w'. auto.
Defined.

(** X6: when the insert of step 1 is rejected, its error is raised as it is,
    nothing is written and the failure handler is not run: no row is left. *)
Theorem rejected_insert_leaves_nothing rt env request d e :
  insert_attempt env = inl e ->
  analyzePronunciation rt env request (start d) = (inl e, start d) /\
  forall id, row_trace rt env request d id = [].
Proof.
  intros Hi. unfold row_trace, run_trace. unfold_run. rewrite Hi.
  split; [reflexivity|]. intros id. reflexivity.
Qed.


(** X8: when the write of the failure handler is rejected, the run raises the
    error of that write instead of the original one, and the row is in no state
    of the run [failed] and carries no message. *)
Theorem rejected_handler_masks_error rt env request d id now e e' w' :
  insert_attempt env = inr (id, now) ->
  mark_failed env = Some e' ->
  analyzePronunciation rt env request (start d) = (inl e, w') ->
  e = e' /\
  exists row,
    attempts (db w') !! id = Some row /\
    Attempt.processingStatus row <> failed /\
    Attempt.errorMessage row = None /\
    forall earlier, earlier ∈ row_trace rt env request d id ->
                    Attempt.processingStatus earlier <> failed.
Proof.
  intros Hi Hf. unfold row_trace, run_trace.
  unfold_run. rewrite Hi, Hf. run_simpl. run_cases.
  all: outcome_leaf.
  all: split; [reflexivity|]; eexists; rows_simpl; split; [reflexivity|].
  all: split; [discriminate|]; split; [reflexivity|].
  all: intros earlier Hin; split_elem Hin; discriminate.
Qed.

(** X9: in every state of its row a run keeps the identifier and creation time
    assigned by the insert and the user, text and audio metadata of the
    request. *)
Theorem request_fields_are_kept rt env request d id now row :
  insert_attempt env = inr (id, now) ->
  row ∈ row_trace rt env request d id ->
  Attempt.id row = id /\
  Attempt.userId row = Request.userId request /\
  Attempt.originalText row = Request.originalText request /\
  Attempt.audioMetadata row = Request.audioMetadata request /\
  Attempt.createdAt row = now.
Proof.
  intros Hi Hin.
  destruct (row_trace_shape rt env request d id now Hi);
    split_elem Hin; repeat split.
Qed.

(** X10: [performAIAnalysis] writes nothing; it returns the result of the
    Gemini service or raises an [Error].  When the failing call threw an
    [Error] object, the message raised is the message of that object behind
    the prefix of the step: once for the lookup of the user, twice for a
    failure inside the Gemini service, which puts the same prefix first. *)
Theorem analysis_step_is_read_only rt find_refused post audioUrl originalText userId w :
  (exists result,
     performAIAnalysis rt find_refused post audioUrl originalText userId w
       = (inr result, w) /\
     GeminiService.analysis_attempt rt post = inr result) \/
  (exists message,
     performAIAnalysis rt find_refused post audioUrl originalText userId w
       = (inl (JsError message), w) /\
     ((exists uid e,
         supplied userId = Some uid /\ find_refused = Some e /\
         forall m, e = JsError m -> message = "AI analysis failed: " +:+ m) \/
      (exists e,
         GeminiService.analysis_attempt rt post = inl e /\
         forall m, e = JsError m ->
                   message = "AI analysis failed: AI analysis failed: " +:+ m))).
Proof.
  unfold performAIAnalysis, ai_analysis_attempt, GeminiService.analyzePronunciation,
    Repository.findOne_user, bind, try_catch, awaited, ret, throw.
  destruct (supplied userId) as [uid|] eqn:Huid;
    [destruct find_refused as [e|]|];
    try (right; eexists; split; [reflexivity|]; left; exists uid, e;
         split; [reflexivity|]; split; [reflexivity|]; by intros m ->).
  all: try destruct (users (db w) !! uid).
  all: destruct (GeminiService.analysis_attempt rt post) as [e|result].
  all: first [ left; eexists; split; reflexivity
             | right; eexists; split; [reflexivity|]; right; exists e;
               split; [reflexivity|]; by intros m -> ].
Qed.

(** ** Statistics: ranges and fresh users *)

Lemma number_or_zero_is_number a :
  exists q, number_or_zero a = Num q /\
            (match a with Some (Num x) => (q == x)%Q | _ => (q == 0)%Q end).
Proof.
  destruct a as [[x|]|]; simpl.
  - destruct (Qeq_bool x 0) eqn:E; eexists; split; try reflexivity.
    apply Qeq_bool_eq in E. by rewrite E.
  - eexists; split; reflexivity.
  - eexists; split; reflexivity.
Qed.

Lemma round_tenths_in_range x :
  (0 <= x)%Q -> (x <= 100)%Q ->
  (0 <= inject_Z (Qfloor (x * 10 + (1 # 2))) / 10)%Q /\
  (inject_Z (Qfloor (x * 10 + (1 # 2))) / 10 <= 100)%Q.
Proof.
  intros Hlo Hhi.
  assert (H0 : (0 <= Qfloor (x * 10 + (1 # 2)))%Z).
  { change 0%Z with (Qfloor 0). apply Qfloor_resp_le. lra. }
  assert (H1 : (Qfloor (x * 10 + (1 # 2)) <= 1000)%Z).
  { change 1000%Z with (Qfloor (2001 # 2)). apply Qfloor_resp_le. lra. }
  rewrite Zle_Qle in H0, H1.
  generalize dependent (inject_Z (Qfloor (x * 10 + (1 # 2)))). intros z H0 H1.
  assert (E : (z / 10 == z * (1 # 10))%Q) by field. rewrite E.
  change (inject_Z 0) with 0%Q in H0. change (inject_Z 1000) with 1000%Q in H1.
  split; lra.
Qed.

(** X12: when the stored average (if any) and the new score lie between 0 and
    100, so does the average that [updateUserStatistics] writes. *)
Theorem average_stays_in_range uid u s w :
  users (db w) !! uid = Some u ->
  0 <= User.totalAttempts u ->
  match User.averageScore u with
  | Some a => in_0_100 a
  | None => True
  end ->
  in_0_100 (Num s) ->
  exists u' r w',
    updateUserStatistics None None uid (Num s) w = (inr tt, w') /\
    users (db w') !! uid = Some u' /\
    User.averageScore u' = Some (Num r) /\
    in_0_100 (Num r).
Proof.
  intros Hu Hn Havg [Hs0 Hs1].
  destruct (updateUserStatistics_existing uid u s w Hu Hn) as (r & Hrun & Hr).
  destruct (number_or_zero_is_number (User.averageScore u)) as (cur & Hcur & Hq).
  specialize (Hr cur Hcur).
  assert (Hc : (0 <= cur)%Q /\ (cur <= 100)%Q).
  { destruct (User.averageScore u) as [[x|]|]; simpl in Havg;
      try contradiction; rewrite Hq; [exact Havg|split; discriminate]. }
  destruct Hc as [Hc0 Hc1].
  eexists _, r, _. split; [exact Hrun|].
  split; [cbn; apply lookup_insert_eq|]. split; [reflexivity|].
  assert (Hn1 : (0 < inject_Z (User.totalAttempts u + 1))%Q).
  { change 0%Q with (inject_Z 0). rewrite <- Zlt_Qlt. lia. }
  assert (Hn0 : (0 <= inject_Z (User.totalAttempts u))%Q).
  { change 0%Q with (inject_Z 0). by rewrite <- Zle_Qle. }
  assert (Hsucc : (inject_Z (User.totalAttempts u + 1)
                   == inject_Z (User.totalAttempts u) + 1)%Q)
    by (rewrite inject_Z_plus; reflexivity).
  unfold in_0_100. rewrite Hr. apply round_tenths_in_range.
  - apply Qle_shift_div_l; [exact Hn1|]. rewrite Qmult_0_l.
    apply Qle_trans with (0 + 0)%Q; [discriminate|].
    apply Qplus_le_compat; [by apply Qmult_le_0_compat|exact Hs0].
  - apply Qle_shift_div_r; [exact Hn1|]. rewrite Hsucc.
    assert (E : (100 * (inject_Z (User.totalAttempts u) + 1)
                 == 100 * inject_Z (User.totalAttempts u) + 100)%Q) by ring.
    rewrite E.
    apply Qplus_le_compat; [|exact Hs1].
    by apply Qmult_le_compat_r.
Qed.


(** ** [getUserStatistics] *)

Lemma completed_rows_spec userId d a :
  a ∈ Repository.completed_rows_of_user userId d ->
  Attempt.userId a = Some userId /\
  Attempt.processingStatus a = completed /\
  exists k, attempts d !! k = Some a.
Proof.
  unfold Repository.completed_rows_of_user.
  rewrite merge_sort_Permutation, list_elem_of_filter, list_elem_of_fmap.
  intros [[Hu Hs] ([k a'] & -> & Hin)]. split; [assumption|]. split; [assumption|].
  exists k. by apply elem_of_map_to_list.
Qed.

Lemma sum_scores_numeric group :
  numeric_scores group -> exists q, sum_scores group = Num q.
Proof.
  unfold sum_scores. generalize 0%Q.
  induction group as [|a group IH]; intros acc Hnum; simpl.
  - eauto.
  - destruct (Hnum a ltac:(left)) as [q Hq]. rewrite Hq. simpl.
    apply IH. intros b Hb. apply Hnum. by right.
Qed.

Lemma group_mean_numeric group otherwise :
  numeric_scores group ->
  (exists q, otherwise = Num q) ->
  exists q, group_mean group otherwise = Num q.
Proof.
  intros Hnum Hother. destruct group as [|a group]; [exact Hother|].
  unfold group_mean. destruct (sum_scores_numeric _ Hnum) as [q ->].
  unfold div.
  assert (Hnz : Qeq_bool (inject_Z (Z.of_nat (length (a :: group)))) 0 = false).
  { apply not_true_is_false. intros H. apply Qeq_bool_eq in H.
    unfold Qeq in H. simpl in H. lia. }
  rewrite Hnz. eauto.
Qed.

(** X14: with at most five completed attempts, whose scores are numbers,
    [getUserStatistics] reports an improvement of 0 and the counter of the user
    row. *)
Theorem few_attempts_show_no_improvement uid u w :
  users (db w) !! uid = Some u ->
  (length (Repository.completed_rows_of_user uid (db w)) <= 5)%nat ->
  numeric_scores (Repository.completed_rows_of_user uid (db w)) ->
  exists stats q,
    getUserStatistics None None uid w = (inr stats, w) /\
    Statistics.recentImprovement stats = Num q /\
    (q == 0)%Q /\
    Statistics.totalAttempts stats = User.totalAttempts u.
Proof.
  intros Hu Hlen Hnum.
  unfold getUserStatistics, Repository.findOne_user, Repository.find_completed,
    bind, awaited, ret.
  rewrite Hu. cbn [fst snd].
  set (rows := Repository.completed_rows_of_user uid (db w)) in *.
  assert (Hwin : firstn 10 rows = rows) by (apply firstn_all2; lia).
  rewrite Hwin.
  assert (Hrecent : firstn 5 rows = rows) by (by apply firstn_all2).
  assert (Hprev : firstn 5 (skipn 5 rows) = []).
  { rewrite skipn_all2 by exact Hlen. reflexivity. }
  rewrite Hrecent, Hprev.
  destruct (group_mean_numeric rows (Num 0) Hnum ltac:(eauto)) as [m Hm].
  eexists _, (m - m)%Q. split; [reflexivity|].
  cbn [Statistics.recentImprovement Statistics.totalAttempts].
  rewrite Hm. cbn [group_mean sub]. split; [reflexivity|].
  split; [ring|reflexivity].
Qed.

Lemma max_with_zero_numeric (scores : list number) :
  (forall x, x ∈ scores -> exists q, x = Num q) ->
  exists b,
    Math_max_with_zero scores = Num b /\
    (0 <= b)%Q /\
    (forall q, Num q ∈ scores -> (q <= b)%Q) /\
    (b = 0%Q \/ Num b ∈ scores).
Proof.
  induction scores as [|x scores IH]; intros Hnum.
  - exists 0%Q. split; [reflexivity|]. split; [discriminate|].
    split; [|by left]. intros q Hq. by apply elem_of_nil in Hq.
  - destruct IH as (b & Hb & Hb0 & Hmax & Hin).
    { intros y Hy. apply Hnum. by right. }
    destruct (Hnum x ltac:(left)) as [q ->].
    cbn [Math_max_with_zero fold_right]. fold (Math_max_with_zero scores).
    rewrite Hb. cbn [Math_max].
    destruct (Qle_bool q b) eqn:E.
    + apply Qle_bool_iff in E. exists b. split; [reflexivity|]. split; [exact Hb0|].
      split.
      * intros q' Hq'. apply elem_of_cons in Hq' as [[= ->]|Hq']; auto.
      * destruct Hin; [by left|right; by right].
    + assert (Hlt : (b < q)%Q).
      { apply Qnot_le_lt. intros H. apply Qle_bool_iff in H. congruence. }
      exists q. split; [reflexivity|].
      split; [apply Qlt_le_weak; eapply Qle_lt_trans; eassumption|].
      split.
      * intros q' Hq'. apply elem_of_cons in Hq' as [[= ->]|Hq'].
        -- apply Qle_refl.
        -- apply Qlt_le_weak. eapply Qle_lt_trans; [by apply Hmax|exact Hlt].
      * right. by left.
Qed.

(** X15: [bestScore] is never negative, bounds the score of each of the ten
    newest completed attempts of the user, and is 0 or the score of one of
    them. *)
Theorem best_score_is_window_maximum uid u w :
  users (db w) !! uid = Some u ->
  numeric_scores (firstn 10 (Repository.completed_rows_of_user uid (db w))) ->
  exists stats b,
    getUserStatistics None None uid w = (inr stats, w) /\
    Statistics.bestScore stats = Num b /\
    (0 <= b)%Q /\
    (forall a q,
       a ∈ firstn 10 (Repository.completed_rows_of_user uid (db w)) ->
       Attempt.overallScore a = Num q -> (q <= b)%Q) /\
    (b = 0%Q \/
     exists a,
       a ∈ firstn 10 (Repository.completed_rows_of_user uid (db w)) /\
       Attempt.overallScore a = Num b /\
       Attempt.userId a = Some uid /\
       Attempt.processingStatus a = completed).
Proof.
  intros Hu Hnum.
  unfold getUserStatistics, Repository.findOne_user, Repository.find_completed,
    bind, awaited, ret.
  rewrite Hu. cbn [fst snd].
  set (window := firstn 10 (Repository.completed_rows_of_user uid (db w))) in *.
  destruct (max_with_zero_numeric (map Attempt.overallScore window))
    as (b & Hb & Hb0 & Hmax & Hin).
  { intros x Hx. apply list_elem_of_fmap in Hx as (a & -> & Ha). by apply Hnum. }
  eexists _, b. split; [reflexivity|]. cbn [Statistics.bestScore].
  split; [exact Hb|]. split; [exact Hb0|]. split.
  - intros a q Ha Hq. apply Hmax. rewrite <- Hq.
    apply list_elem_of_fmap. eauto.
  - destruct Hin as [->|Hin]; [by left|right].
    apply list_elem_of_fmap in Hin as (a & Hq & Ha).
    exists a. split; [exact Ha|]. split; [by rewrite Hq|].
    assert (Hrow : a ∈ Repository.completed_rows_of_user uid (db w)).
    { unfold window in Ha. rewrite <- (firstn_skipn 10). apply elem_of_app. by left. }
    destruct (completed_rows_spec _ _ _ Hrow) as (Hid & Hst & _). auto.
Qed.

Lemma sum_scores_range group :
  scores_in_range group ->
  exists q, sum_scores group = Num q /\
            (0 <= q)%Q /\ (q <= 100 * inject_Z (Z.of_nat (length group)))%Q.
Proof.
  unfold sum_scores.
  assert (H : forall acc, scores_in_range group ->
    exists q,
      fold_left (fun sum a => add sum (Attempt.overallScore a)) group (Num acc)
        = Num q /\
      (acc <= q)%Q /\ (q <= acc + 100 * inject_Z (Z.of_nat (length group)))%Q).
  { induction group as [|a group IH]; intros acc Hr.
    - exists acc. split; [reflexivity|].
      change (inject_Z (Z.of_nat (length (@nil PronunciationAttempt)))) with 0%Q.
      split; [apply Qle_refl|]. rewrite Qmult_0_r, Qplus_0_r. apply Qle_refl.
    - pose proof (Hr a ltac:(left)) as Ha.
      destruct (Attempt.overallScore a) as [x|] eqn:Hx; [|contradiction].
      destruct Ha as [Hx0 Hx1].
      destruct (IH (acc + x)%Q) as (q & Hq & Hlo & Hhi).
      { intros b Hb. apply Hr. by right. }
      exists q. cbn [fold_left]. rewrite Hx. cbn [add]. split; [exact Hq|].
      assert (Hlen : (inject_Z (Z.of_nat (length (a :: group)))
                      == inject_Z (Z.of_nat (length group)) + 1)%Q).
      { cbn [length]. rewrite Nat2Z.inj_succ, <- Z.add_1_r, inject_Z_plus.
        reflexivity. }
      rewrite Hlen. split; lra. }
  intros Hr. destruct (H 0%Q Hr) as (q & Hq & Hlo & Hhi).
  exists q. split; [exact Hq|]. split; [exact Hlo|]. lra.
Qed.

Lemma group_mean_range group otherwise :
  scores_in_range group ->
  in_0_100 otherwise ->
  in_0_100 (group_mean group otherwise).
Proof.
  intros Hr Hother. destruct group as [|a group]; [exact Hother|].
  unfold group_mean.
  destruct (sum_scores_range _ Hr) as (q & -> & Hlo & Hhi).
  set (n := inject_Z (Z.of_nat (length (a :: group)))) in *.
  assert (Hn : (0 < n)%Q).
  { unfold n. change 0%Q with (inject_Z 0). rewrite <- Zlt_Qlt. cbn [length]. lia. }
  unfold div.
  assert (Hnz : Qeq_bool n 0 = false).
  { apply not_true_is_false. intros H. apply Qeq_bool_eq in H. rewrite H in Hn.
    by apply Qlt_irrefl in Hn. }
  rewrite Hnz. split.
  - apply Qle_shift_div_l; [exact Hn|]. by rewrite Qmult_0_l.
  - apply Qle_shift_div_r; [exact Hn|exact Hhi].
Qed.

(** X16: when the scores of the ten newest completed attempts lie between 0 and
    100, [bestScore] does too and [recentImprovement] lies between -100 and
    100. *)
Theorem statistics_stay_in_range uid u w :
  users (db w) !! uid = Some u ->
  scores_in_range (firstn 10 (Repository.completed_rows_of_user uid (db w))) ->
  exists stats q,
    getUserStatistics None None uid w = (inr stats, w) /\
    in_0_100 (Statistics.bestScore stats) /\
    Statistics.recentImprovement stats = Num q /\
    (- (100) <= q)%Q /\ (q <= 100)%Q.
Proof.
  intros Hu Hr.
  unfold getUserStatistics, Repository.findOne_user, Repository.find_completed,
    bind, awaited, ret.
  rewrite Hu. cbn [fst snd].
  set (window := firstn 10 (Repository.completed_rows_of_user uid (db w))) in *.
  assert (Hsub : forall n l, (forall a : PronunciationAttempt, a ∈ l -> a ∈ window) ->
                             forall a, a ∈ firstn n l -> a ∈ window).
  { intros n l Hl a Ha. apply Hl. rewrite <- (firstn_skipn n l).
    apply elem_of_app. by left. }
  assert (Hrecent : scores_in_range (firstn 5 window)).
  { intros a Ha. apply Hr. by apply (Hsub 5%nat window). }
  assert (Hprev : scores_in_range (firstn 5 (skipn 5 window))).
  { intros a Ha. apply Hr. apply (Hsub 5%nat (skipn 5 window)); [|exact Ha].
    intros b Hb. rewrite <- (firstn_skipn 5 window). apply elem_of_app. by right. }
  assert (Hzero : in_0_100 (Num 0)) by (split; discriminate).
  pose proof (group_mean_range _ _ Hrecent Hzero) as Hm1.
  pose proof (group_mean_range _ _ Hprev Hm1) as Hm2.
  destruct (group_mean (firstn 5 window) (Num 0)) as [m1|] eqn:E1; [|contradiction].
  destruct (group_mean (firstn 5 (skipn 5 window)) (Num m1)) as [m2|] eqn:E2;
    [|contradiction].
  destruct (max_with_zero_numeric (map Attempt.overallScore window))
    as (b & Hb & Hb0 & Hmax & Hin).
  { intros x Hx. apply list_elem_of_fmap in Hx as (a & -> & Ha).
    specialize (Hr a Ha). destruct (Attempt.overallScore a); [eauto|contradiction]. }
  eexists _, (m1 - m2)%Q. split; [reflexivity|].
  cbn [Statistics.bestScore Statistics.recentImprovement].
  rewrite Hb. cbn [sub]. split.
  - split; [exact Hb0|]. destruct Hin as [->|Hin]; [discriminate|].
    apply list_elem_of_fmap in Hin as (a & Hq & Ha).
    specialize (Hr a Ha). rewrite <- Hq in Hr. apply Hr.
  - split; [reflexivity|]. destruct Hm1, Hm2. split; lra.
Qed.

(** ** Reading the listing page by page *)

(** When the database serves the query, the listing returns and writes
    nothing. *)
Lemma listing_is_served userId page limit w :
  exists result,
    getUserPronunciationAttempts None userId page limit w = (inr result, w).
Proof. eexists. reflexivity. Qed.

Lemma windows_cover {A} (n : nat) (l : list A) (k : nat) :
  concat (map (fun i => firstn n (skipn (i * n) l)) (seq 0 k)) = firstn (k * n) l.
Proof.
  induction k as [|k IH]; [reflexivity|].
  rewrite seq_S, map_app, concat_app, IH. cbn [map concat plus].
  rewrite app_nil_r, take_take_drop. f_equal. lia.
Qed.

(** X17: a reader that takes [total] from the first page and then reads, in
    order, pages 1 to [pages], enough of them to hold [total] rows, has read
    the rows of the user in the table, each once and the newest first: the
    entries read show these rows one by one, field by field. *)
Theorem pages_cover_rows userId limit w (pages : nat) first :
  1 <= limit ->
  getUserPronunciationAttempts None userId 1 limit w = (inr first, w) ->
  total first <= Z.of_nat pages * limit ->
  exists rows,
    rows_of userId (db w) rows /\
    total first = Z.of_nat (length rows) /\
    Forall2 shows
      (concat (map (fun p => listed_page userId limit w (Z.of_nat p))
                   (seq 1 pages)))
      rows.
Proof.
  intros Hlimit Hfirst Hpages.
  pose proof (rows_of_user_selected userId (db w)) as Hrows.
  set (rows := Repository.rows_of_user userId (db w)) in *.
  assert (Htotal : total first = Z.of_nat (length rows)).
  { revert Hfirst. unfold getUserPronunciationAttempts, Repository.findAndCount,
      bind, awaited, ret. cbn [fst snd]. intros [= <-]. reflexivity. }
  assert (Hpage : forall i : nat,
    listed_page userId limit w (Z.of_nat (S i)) =
    map mapToResponse (firstn (Z.to_nat limit) (skipn (i * Z.to_nat limit) rows))).
  { intros i. unfold listed_page, getUserPronunciationAttempts,
      Repository.findAndCount, bind, awaited, ret. cbn [fst snd page_attempts].
    fold rows. do 3 f_equal. nia. }
  exists rows. split; [exact Hrows|]. split; [exact Htotal|].
  rewrite <- seq_shift, map_map.
  erewrite map_ext; [|intros i; apply Hpage].
  rewrite <- (map_map (fun i => firstn (Z.to_nat limit) (skipn (i * Z.to_nat limit) rows))
                      (map mapToResponse)).
  rewrite <- concat_map, windows_cover, firstn_all2 by nia.
  apply Forall2_fmap_l, Forall_Forall2_diag, Forall_forall.
  intros a _. apply mapToResponse_shows.
Qed.

Lemma pages_cover_rows_witness :
  exists rows,
    rows_of "u1" Scene.fifteen_attempts rows /\
    Forall2 shows
      (concat (map (fun p => listed_page "u1" 4 (start Scene.fifteen_attempts)
                                (Z.of_nat p))
                   (seq 1 4)))
      rows /\
    map Response.id
      (concat (map (fun p => listed_page "u1" 4 (start Scene.fifteen_attempts)
                                (Z.of_nat p))
                   (seq 1 4)))
    = ["a15"; "a14"; "a13"; "a12"; "a11"; "a10"; "a09"; "a08"; "a07"; "a06";
       "a05"; "a04"; "a03"; "a02"; "a01"].
Proof.
  destruct (listing_is_served "u1" 1 4 (start Scene.fifteen_attempts))
    as (first & Hfirst).
  assert (Hread :
    match (getUserPronunciationAttempts None "u1" 1 4
             (start Scene.fifteen_attempts)).1 with
    | inr r => total r = 15
    | inl _ => False
    end) by (vm_compute; reflexivity).
  rewrite Hfirst in Hread. cbn [fst] in Hread.
  assert (Hpages : total first <= Z.of_nat 4 * 4).
  { rewrite Hread. apply Zle_bool_imp_le. reflexivity. }
  destruct (pages_cover_rows "u1" 4 (start Scene.fifteen_attempts) 4 first
              (Zle_bool_imp_le 1 4 eq_refl) Hfirst Hpages)
    as (rows & Hrows & _ & Hshown).
  exists rows. split; [exact Hrows|]. split; [exact Hshown|].
  vm_compute. reflexivity.
Defined.

(** ** The match of the braces *)

Section Braces.

Import GeminiService.

Lemma from_first_open_app pre rest :
  occurs open_brace pre = false ->
  from_first_open (pre +:+ String open_brace rest) = Some (String open_brace rest).
Proof.
  induction pre as [|c pre IH]; simpl.
  - intros _. reflexivity.
  - intros H. apply orb_false_iff in H as [Hc Hpre]. rewrite Hc. by apply IH.
Qed.

Lemma upto_last_close_none s :
  upto_last_close s = None <-> occurs close_brace s = false.
Proof.
  induction s as [|c s IH]; simpl; [tauto|].
  destruct (upto_last_close s) as [p|].
  - split; [discriminate|]. intros H. apply orb_false_iff in H as [_ H].
    apply IH in H. discriminate.
  - destruct (Ascii.eqb c close_brace); simpl; [split; discriminate|].
    split; [intros _; by apply IH|reflexivity].
Qed.

Lemma upto_last_close_app body post :
  occurs close_brace post = false ->
  upto_last_close (body +:+ String close_brace post)
    = Some (body +:+ String close_brace EmptyString).
Proof.
  intros Hpost. apply upto_last_close_none in Hpost.
  induction body as [|c body IH]; simpl.
  - rewrite Hpost. reflexivity.
  - by rewrite IH.
Qed.

Lemma from_first_open_prefix s m :
  from_first_open s = Some m ->
  exists pre, s = pre +:+ m /\ occurs open_brace pre = false.
Proof.
  induction s as [|c s IH]; simpl; [discriminate|].
  destruct (Ascii.eqb c open_brace) eqn:E.
  - intros [= <-]. exists EmptyString. split; reflexivity.
  - intros H. destruct (IH H) as (pre & -> & Hpre).
    exists (String c pre). split; [reflexivity|]. simpl. by rewrite E.
Qed.

Lemma upto_last_close_suffix s m :
  upto_last_close s = Some m ->
  exists body post,
    m = body +:+ String close_brace EmptyString /\
    s = m +:+ post /\ occurs close_brace post = false.
Proof.
  revert m. induction s as [|c s IH]; simpl; [discriminate|].
  intros m. destruct (upto_last_close s) as [p|] eqn:E.
  - intros [= <-]. destruct (IH p eq_refl) as (body & post & -> & Hs & Hpost).
    exists (String c body), post. split; [reflexivity|].
    split; [rewrite Hs at 1; reflexivity|exact Hpost].
  - destruct (Ascii.eqb c close_brace) eqn:Ec; [|discriminate].
    intros [= <-]. apply Ascii.eqb_eq in Ec. subst c.
    exists EmptyString, s. split; [reflexivity|]. split; [reflexivity|].
    by apply upto_last_close_none.
Qed.

(** X18: the pattern matches exactly the text from the first opening brace to
    the last closing brace after it; there is no match when no closing brace
    follows the first opening brace. *)
Theorem match_spans_first_open_to_last_close text m :
  match_braces text = Some m <->
  exists pre mid post,
    text = pre +:+ m +:+ post /\
    m = String open_brace mid +:+ String close_brace EmptyString /\
    occurs open_brace pre = false /\
    occurs close_brace post = false.
Proof.
  unfold match_braces. split.
  - destruct (from_first_open text) as [s|] eqn:E; [|discriminate].
    intros H. destruct (from_first_open_prefix _ _ E) as (pre & -> & Hpre).
    destruct (upto_last_close_suffix _ _ H) as (body & post & Hm & Hs & Hpost).
    destruct (from_first_open_split _ _ E) as (_ & rest & _ & Hrest).
    destruct body as [|c body].
    + exfalso. rewrite Hrest in Hs. rewrite Hm in Hs. simpl in Hs.
      injection Hs as Hc _. discriminate Hc.
    + assert (c = open_brace) as ->.
      { rewrite Hrest, Hm in Hs. simpl in Hs. by injection Hs as <- _. }
      exists pre, body, post. rewrite Hs at 1. auto.
  - intros (pre & mid & post & -> & -> & Hpre & Hpost).
    assert (E : pre +:+ ((String open_brace mid +:+ String close_brace EmptyString)
                         +:+ post)
                = pre +:+ String open_brace (mid +:+ String close_brace post)).
    { f_equal. change (String open_brace ((mid +:+ String close_brace EmptyString) +:+ post)
                       = String open_brace (mid +:+ String close_brace post)).
      f_equal. induction mid as [|c mid IH]; [reflexivity|].
      change (String c ((mid +:+ String close_brace EmptyString) +:+ post)
              = String c (mid +:+ String close_brace post)).
      by rewrite IH. }
    rewrite E, (from_first_open_app _ _ Hpre).
    change (String open_brace (mid +:+ String close_brace post))
      with (String open_brace mid +:+ String close_brace post).
    by apply upto_last_close_app.
Qed.

End Braces.

(** ** Clamping and the silent fallback *)



(** X11: a served run whose model answer holds no JSON object does not fail: it
    returns a [completed] response with the fallback scores 75 and 70 and the
    first 500 code units of the answer as feedback. *)
Theorem unparsable_answer_completes_with_fallback
    rt env request d id now resp text parts others :
  insert_attempt env = inr (id, now) ->
  mark_processing env = None ->
  pinata_post env = inr resp ->
  store_ipfs env = None ->
  find_user_level env = None ->
  gemini_post env =
    inr {| GeminiService.candidates := Some ((text :: parts) :: others) |} ->
  ~ contains_json_object rt text ->
  store_result env = None ->
  reread_attempt env = None ->
  find_user_stats env = None ->
  store_stats env = None ->
  exists response w',
    analyzePronunciation rt env request (start d) = (inr response, w') /\
    Response.processingStatus response = completed /\
    Response.overallScore response = Num 75 /\
    Response.analysisResult response = GeminiService.fallback_result text /\
    Analysis.toneAccuracy (Response.analysisResult response) = Num 70 /\
    Analysis.detailedFeedback (Response.analysisResult response)
      = JString (substring_from_start 500 text) /\
    String_length (substring_from_start 500 text)
      = Nat.min 500 (String_length text).
Proof.
  intros Hi Hp Hu Hs Hl Hg Hno Hr Hrr Hfs Hss.
  assert (Ha : GeminiService.analysis_attempt rt (gemini_post env)
               = inr (GeminiService.fallback_result text)).
  { rewrite Hg. cbn. f_equal. by apply parse_without_json_object. }
  unfold_run. rewrite Hi, Hp, Hu, Hs, Hl, Ha, Hr, Hrr, Hfs, Hss.
  run_simpl. run_cases.
  all: eexists _, _; (split; [reflexivity|]); repeat split.
  all: apply substring_from_start_length.
Qed.

(** ** [PinataService]: addresses and settings *)

Lemma append_inj_l s a b : s +:+ a = s +:+ b -> a = b.
Proof.
  induction s as [|c s IH]; [trivial|].
  change (String c (s +:+ a) = String c (s +:+ b) -> a = b).
  intros [= H]. by apply IH.
Qed.

(** X22: for one gateway, two content hashes have the same public address only
    if they are the same hash; the address starts with the scheme and is never
    empty. *)
Theorem public_url_identifies_hash gateway h1 h2 :
  (getPublicUrl gateway h1 = getPublicUrl gateway h2 <-> h1 = h2) /\
  (exists rest, getPublicUrl gateway h1 = "https://" +:+ rest) /\
  getPublicUrl gateway h1 <> EmptyString.
Proof.
  unfold getPublicUrl. split; [|split].
  - split; [|by intros ->]. intros H.
    apply append_inj_l in H. apply append_inj_l in H. by apply append_inj_l in H.
  - eexists. reflexivity.
  - discriminate.
Qed.

(** X23: the constructor of [PinataService] succeeds exactly when the token and
    the gateway are both configured and not empty, and keeps them; otherwise it
    names the setting that is missing or empty, the token first. *)
Theorem pinata_needs_both_settings config :
  (forall service,
     Construction.constructor config = inr service <->
     config "PINATA_JWT" = Some (Construction.pinataJWT service) /\
     Construction.pinataJWT service <> EmptyString /\
     config "PINATA_GATEWAY_URL" = Some (Construction.gatewayUrl service) /\
     Construction.gatewayUrl service <> EmptyString) /\
  (forall e,
     Construction.constructor config = inl e ->
     e = JsError "PINATA_JWT is required but not provided" /\
       (config "PINATA_JWT" = None \/ config "PINATA_JWT" = Some EmptyString) \/
     e = JsError "PINATA_GATEWAY_URL is required but not provided" /\
       (config "PINATA_GATEWAY_URL" = None \/
        config "PINATA_GATEWAY_URL" = Some EmptyString) /\
       (exists jwt, config "PINATA_JWT" = Some jwt /\ jwt <> EmptyString)).
Proof.
  unfold Construction.constructor. split.
  - intros [jwt gw]. cbn [Construction.pinataJWT Construction.gatewayUrl].
    destruct (config "PINATA_JWT") as [[|c j]|];
      destruct (config "PINATA_GATEWAY_URL") as [[|c' g]|]; cbn; split.
    all: try (intros H; discriminate H).
    all: try (intros (H1 & H2 & H3 & H4); congruence).
    all: intros [= <- <-]; repeat split; discriminate.
  - intros e.
    destruct (config "PINATA_JWT") as [[|c j]|];
      destruct (config "PINATA_GATEWAY_URL") as [[|c' g]|]; cbn;
      intros [= <-].
    all: first [ left; split; [reflexivity|]; auto; fail
               | right; split; [reflexivity|]; split; [auto|];
                 eexists; split; [reflexivity|discriminate] ].
Qed.

(** X24: the constructors of [GeminiService] and [ElevenLabsService] succeed
    exactly when their key is configured and not empty. *)
Theorem api_keys_are_required config :
  (forall key,
     GeminiService.constructor config = inr key <->
     config "GEMINI_API_KEY" = Some key /\ key <> EmptyString) /\
  (forall key,
     ElevenLabsService.constructor config = inr key <->
     config "ELEVENLABS_API_KEY" = Some key /\ key <> EmptyString).
Proof.
  unfold GeminiService.constructor, ElevenLabsService.constructor. split.
  - intros key. destruct (config "GEMINI_API_KEY") as [[|c k]|]; cbn; split.
    all: try (intros H; discriminate H).
    all: try (intros [H1 H2]; congruence).
    all: intros [= <-]; split; [reflexivity|discriminate].
  - intros key. destruct (config "ELEVENLABS_API_KEY") as [[|c k]|]; cbn; split.
    all: try (intros H; discriminate H).
    all: try (intros [H1 H2]; congruence).
    all: intros [= <-]; split; [reflexivity|discriminate].
Qed.

(** ** [TtsController] *)

Section Tts.

Import ElevenLabsService TtsController.

(** X25: [vietnameseTTS] answers [Text is required] with status 400 exactly
    when the text is missing or consists of white space only (characters of
    the white space and line terminators of ECMAScript, possibly none),
    whatever the speech endpoint would answer. *)
Theorem blank_text_is_refused post send_refused payload_text :
  vietnameseTTS post send_refused payload_text = inl text_required <->
  match payload_text with
  | None => True
  | Some text => white_space_only text
  end.
Proof.
  unfold vietnameseTTS, tts_attempt, generateSpeech, text_required.
  destruct payload_text as [text|]; [|by split].
  rewrite <- trim_empty.
  destruct text as [|c text]; [by split|]. cbn [is_empty orb].
  destruct (trim (String c text)) as [|c' t'] eqn:E.
  - by split.
  - cbn [is_empty]. split; [|discriminate].
    destruct post; [discriminate|]. destruct send_refused; discriminate.
Qed.

(** X26: every error that leaves [vietnameseTTS] is one of three fixed
    [HttpException]s; a rejection by the speech endpoint surfaces with status
    500 and the fixed message of the service, never with its own message. *)
Theorem tts_errors_are_fixed post send_refused payload_text e :
  vietnameseTTS post send_refused payload_text = inl e ->
  e = text_required \/
  (e = HttpException "Failed to generate speech from ElevenLabs" 500 /\
   exists upstream, post = inl upstream) \/
  (e = HttpException "TTS generation failed" 500 /\
   exists audio cause, post = inr audio /\ send_refused = Some cause).
Proof.
  unfold vietnameseTTS, tts_attempt, generateSpeech, text_required.
  destruct payload_text as [text|]; [|intros [= <-]; by left].
  destruct (is_empty text || is_empty (trim text))%bool;
    [intros [= <-]; by left|].
  destruct post as [upstream|audio].
  - intros [= <-]. right; left. eauto.
  - destruct send_refused as [cause|]; [|discriminate].
    intros [= <-]. right; right. eauto.
Qed.

(** X27: a reply of [vietnameseTTS] carries the bytes that the speech endpoint
    returned, for a text that holds more than white space, with the content
    type of MPEG audio. *)
Theorem spoken_text_is_sent post send_refused payload_text reply :
  vietnameseTTS post send_refused payload_text = inr reply ->
  post = inr (body reply) /\
  send_refused = None /\
  (exists text, payload_text = Some text /\ ~ white_space_only text) /\
  In ("Content-Type", "audio/mpeg") (headers reply).
Proof.
  unfold vietnameseTTS, tts_attempt, generateSpeech.
  destruct payload_text as [text|]; [|discriminate].
  destruct (is_empty text || is_empty (trim text))%bool eqn:Hblank;
    [discriminate|].
  destruct post as [upstream|audio]; [discriminate|].
  destruct send_refused as [cause|]; [discriminate|].
  intros [= <-]. cbn [body headers]. repeat split; [|by left].
  exists text. split; [reflexivity|].
  intros Hw. apply trim_empty in Hw.
  rewrite Hw in Hblank. cbn in Hblank. by rewrite orb_true_r in Hblank.
Qed.

End Tts.

(** ** More on the result parser *)

(** X20: an answer without a JSON object yields the fallback result: the
    scores 75 and 70, one fixed error and one fixed suggestion, and as feedback
    the answer itself cut after 500 UTF-16 code units. *)
Theorem answer_without_json_object_falls_back rt text :
  ~ contains_json_object rt text ->
  GeminiService.parseAnalysisResult rt text =
    {| Analysis.overallScore := Num 75;
       Analysis.toneAccuracy := Num 70;
       Analysis.pronunciationErrors := [JString GeminiService.cannot_analyse];
       Analysis.suggestions := [JString GeminiService.try_again_clearer];
       Analysis.detailedFeedback :=
         JString (substring_from_start 500 text) |} /\
  String_length (substring_from_start 500 text)
    = Nat.min 500 (String_length text) /\
  ((String_length text <= 500)%nat -> substring_from_start 500 text = text).
Proof.
  intros Hno. split; [by apply parse_without_json_object|].
  split; [apply substring_from_start_length|apply substring_from_start_all].
Qed.

(** X21: a score of the result is [NaN] only when the answer held a JSON
    object that gives this score as a string, an array or an object. *)
Theorem nan_score_needs_non_numeric_field rt text :
  Analysis.overallScore (GeminiService.parseAnalysisResult rt text) = NaN ->
  exists m fields v,
    GeminiService.match_braces text = Some m /\
    JSON_parse rt m = Some (JObject fields) /\
    assoc "overallScore" fields = Some v /\
    match v with
    | JString _ | JArray _ | JObject _ => True
    | _ => False
    end.
Proof.
  unfold GeminiService.parseAnalysisResult.
  destruct (GeminiService.match_braces text) as [m|] eqn:Hm; [|discriminate].
  destruct (JSON_parse rt m) as [parsed|] eqn:Hp; [|discriminate].
  destruct (GeminiService.structured_result rt parsed) as [result|] eqn:E;
    [|discriminate].
  unfold GeminiService.structured_result in E.
  destruct (get_property parsed "overallScore") as [overall|] eqn:Hget;
    [|discriminate].
  destruct (GeminiService.clamp_score rt overall) as [o|] eqn:Eo; [|discriminate].
  destruct (get_property parsed "toneAccuracy") as [tone|]; [|discriminate].
  destruct (GeminiService.clamp_score rt tone) as [t|]; [|discriminate].
  destruct (get_property parsed "pronunciationErrors"); [|discriminate].
  destruct (get_property parsed "suggestions"); [|discriminate].
  destruct (get_property parsed "detailedFeedback"); [|discriminate].
  injection E as <-. cbn [Analysis.overallScore]. intros ->.
  destruct (clamp_score_range _ _ _ Eo) as [[]|[_ Hnan]].
  unfold or_zero in Hnan.
  destruct parsed as [| b | q | s | items | fields]; cbn in Hget;
    try discriminate Hget; injection Hget as <-;
    try (cbn in Hnan; discriminate Hnan).
  destruct (assoc "overallScore" fields) as [v|] eqn:Hv;
    [|cbn in Hnan; discriminate].
  exists m, fields, v.
  split; [reflexivity|]. split; [exact Hp|]. split; [exact Hv|].
  destruct v as [| b | q | s | items | fields']; try exact I; cbn in Hnan.
  - discriminate.
  - destruct b; discriminate.
  - destruct (negb (Qeq_bool q 0)); discriminate.
Qed.

(** ** Instances of the further properties *)

Lemma served_run_returns :
  exists response w',
    analyzePronunciation Sample.runtime Sample.served Sample.learner_request
      (start Sample.db_with_learner) = (inr response, w').
Proof. eexists _, _. vm_compute. reflexivity. Defined.

Lemma returned_response_is_stored_witness :
  exists response w' row,
    analyzePronunciation Sample.runtime Sample.served Sample.learner_request
      (start Sample.db_with_learner) = (inr response, w') /\
    attempts (db w') !! Response.id response = Some row /\
    response = mapToResponse row.
Proof.
  destruct served_run_returns as (response & w' & Hrun).
  destruct (returned_response_is_stored _ _ _ _ _ _ Hrun) as (row & Hrow & Hmap & _).
  exists response, w', row. auto.
Defined.

Lemma stored_attempt_round_trip_witness :
  exists response w',
    analyzePronunciation Sample.runtime Sample.served Sample.learner_request
      (start Sample.db_with_learner) = (inr response, w') /\
    getPronunciationAttempt None (Response.id response) w' = (inr response, w').
Proof.
  destruct served_run_returns as (response & w' & Hrun).
  exists response, w'. split; [exact Hrun|].
  exact (stored_attempt_round_trip _ _ _ _ _ _ Hrun).
Defined.

Lemma statistics_failure_raises :
  exists e w',
    analyzePronunciation Sample.runtime Sample.statistics_fail
      Sample.learner_request (start Sample.db_with_learner) = (inl e, w').
Proof. eexists _, _. vm_compute. reflexivity. Defined.

Lemma raised_run_leaves_users_witness :
  exists e w',
    analyzePronunciation Sample.runtime Sample.statistics_fail
      Sample.learner_request (start Sample.db_with_learner) = (inl e, w') /\
    users (db w') = users Sample.db_with_learner.
Proof.
  destruct statistics_failure_raises as (e & w' & Hrun).
  exists e, w'. split; [exact Hrun|].
  exact (raised_run_leaves_users _ _ _ _ _ _ Hrun).
Defined.

Lemma returned_run_counts_attempt_witness :
  exists response w' u',
    analyzePronunciation Sample.runtime Sample.served Sample.learner_request
      (start Sample.db_with_learner) = (inr response, w') /\
    users (db w') !! "u1" = Some u' /\
    User.totalAttempts u' = 4.
Proof.
  destruct served_run_returns as (response & w' & Hrun).
  destruct (returned_run_counts_attempt Sample.runtime Sample.served
              Sample.learner_request Sample.db_with_learner response w' "u1"
              Sample.learner Hrun eq_refl eq_refl)
    as (u' & w1 & Hu' & Hn & _).
  exists response, w', u'. auto.
Defined.

Lemma rejected_insert_leaves_nothing_witness :
  analyzePronunciation Sample.runtime Scene.rejected_insert
    Sample.anonymous_request (start Sample.empty_db)
  = (inl (JsError "connection refused"), start Sample.empty_db).
Proof.
  exact (proj1 (rejected_insert_leaves_nothing Sample.runtime
                  Scene.rejected_insert Sample.anonymous_request
                  Sample.empty_db (JsError "connection refused") eq_refl)).
Defined.


Lemma rejected_handler_raises :
  exists e w',
    analyzePronunciation Sample.runtime Scene.rejected_handler
      Sample.anonymous_request (start Sample.empty_db) = (inl e, w').
Proof. eexists _, _. vm_compute. reflexivity. Defined.

Lemma rejected_handler_masks_error_witness :
  exists e w',
    analyzePronunciation Sample.runtime Scene.rejected_handler
      Sample.anonymous_request (start Sample.empty_db) = (inl e, w') /\
    e = JsError "connection terminated".
Proof.
  destruct rejected_handler_raises as (e & w' & Hrun).
  exists e, w'. split; [exact Hrun|].
  exact (proj1 (rejected_handler_masks_error Sample.runtime
                  Scene.rejected_handler Sample.anonymous_request
                  Sample.empty_db "a1" 1000 e
                  (JsError "connection terminated") w'
                  eq_refl eq_refl Hrun)).
Defined.

Lemma request_fields_are_kept_witness :
  exists row,
    row_trace Sample.runtime Sample.analysis_fails Sample.anonymous_request
      Sample.empty_db "a1" !! 3%nat = Some row /\
    Attempt.originalText row = "ni hao" /\
    Attempt.createdAt row = 1000.
Proof.
  assert (Hrow : exists row,
             row_trace Sample.runtime Sample.analysis_fails
               Sample.anonymous_request Sample.empty_db "a1" !! 3%nat = Some row)
    by (eexists; vm_compute; reflexivity).
  destruct Hrow as (row & Hrow). exists row. split; [exact Hrow|].
  destruct (request_fields_are_kept Sample.runtime Sample.analysis_fails
              Sample.anonymous_request Sample.empty_db "a1" 1000 row eq_refl
              (list_elem_of_lookup_2 _ 3%nat row Hrow))
    as (_ & _ & Htext & _ & Hnow).
  split; [exact Htext|exact Hnow].
Defined.

Lemma unparsable_answer_completes_with_fallback_witness :
  exists response w',
    analyzePronunciation Sample.runtime Sample.served Sample.anonymous_request
      (start Sample.empty_db) = (inr response, w') /\
    Response.overallScore response = Num 75.
Proof.
  assert (Hno : ~ contains_json_object Sample.runtime "Good tones, clear finals.").
  { intros (pre & obj & post & rest & v & _ & _ & Hparse). discriminate Hparse. }
  destruct (unparsable_answer_completes_with_fallback Sample.runtime Sample.served
              Sample.anonymous_request Sample.empty_db "a1" 1000 Sample.pinned
              "Good tones, clear finals." [] []
              eq_refl eq_refl eq_refl eq_refl eq_refl eq_refl Hno
              eq_refl eq_refl eq_refl eq_refl)
    as (response & w' & Hrun & _ & Hscore & _).
  exists response, w'. auto.
Defined.

Lemma average_stays_in_range_witness :
  exists u' r w',
    updateUserStatistics None None "u1" (Num 90) (start Sample.db_with_learner)
      = (inr tt, w') /\
    User.averageScore u' = Some (Num r) /\
    in_0_100 (Num r).
Proof.
  assert (H80 : in_0_100 (Num 80)) by (split; discriminate).
  assert (H90 : in_0_100 (Num 90)) by (split; discriminate).
  destruct (average_stays_in_range "u1" Sample.learner 90
              (start Sample.db_with_learner) eq_refl (Pos2Z.is_nonneg 3) H80 H90)
    as (u' & r & w' & Hrun & _ & Havg & Hr).
  exists u', r, w'. auto.
Defined.


Lemma after_run_learner :
  exists u, users (db Scene.after_run) !! "u1" = Some u.
Proof. eexists. vm_compute. reflexivity. Defined.

Lemma after_run_completed_rows :
  exists a,
    Repository.completed_rows_of_user "u1" (db Scene.after_run) = [a] /\
    Attempt.overallScore a = Num 75.
Proof. eexists. split; vm_compute; reflexivity. Defined.

Lemma few_attempts_show_no_improvement_witness :
  exists stats q,
    getUserStatistics None None "u1" Scene.after_run = (inr stats, Scene.after_run) /\
    Statistics.recentImprovement stats = Num q /\
    (q == 0)%Q.
Proof.
  destruct after_run_learner as (u & Hu).
  destruct after_run_completed_rows as (a & Hrows & Hscore).
  assert (Hlen : (length (Repository.completed_rows_of_user "u1"
                            (db Scene.after_run)) <= 5)%nat).
  { rewrite Hrows. simpl. lia. }
  assert (Hnum : numeric_scores (Repository.completed_rows_of_user "u1"
                                   (db Scene.after_run))).
  { rewrite Hrows. intros b Hb. apply list_elem_of_singleton in Hb. subst b.
    exists 75%Q. exact Hscore. }
  destruct (few_attempts_show_no_improvement "u1" u Scene.after_run Hu Hlen Hnum)
    as (stats & q & Hrun & Himp & Hq & _).
  exists stats, q. auto.
Defined.

Lemma best_score_is_window_maximum_witness :
  exists stats b,
    getUserStatistics None None "u1" Scene.after_run = (inr stats, Scene.after_run) /\
    Statistics.bestScore stats = Num b /\
    (75 <= b)%Q.
Proof.
  destruct after_run_learner as (u & Hu).
  destruct after_run_completed_rows as (a & Hrows & Hscore).
  assert (Hnum : numeric_scores (firstn 10 (Repository.completed_rows_of_user "u1"
                                              (db Scene.after_run)))).
  { rewrite Hrows. intros b Hb. apply list_elem_of_singleton in Hb. subst b.
    exists 75%Q. exact Hscore. }
  destruct (best_score_is_window_maximum "u1" u Scene.after_run Hu Hnum)
    as (stats & b & Hrun & Hbest & _ & Hmax & _).
  exists stats, b. repeat split; try assumption.
  apply (Hmax a 75%Q); [|exact Hscore].
  rewrite Hrows. apply list_elem_of_singleton. reflexivity.
Defined.

Lemma statistics_stay_in_range_witness :
  exists stats,
    getUserStatistics None None "u1" Scene.after_run = (inr stats, Scene.after_run) /\
    in_0_100 (Statistics.bestScore stats).
Proof.
  destruct after_run_learner as (u & Hu).
  destruct after_run_completed_rows as (a & Hrows & Hscore).
  assert (Hrange : scores_in_range (firstn 10 (Repository.completed_rows_of_user "u1"
                                              (db Scene.after_run)))).
  { rewrite Hrows. intros b Hb. apply list_elem_of_singleton in Hb. subst b.
    rewrite Hscore. split; discriminate. }
  destruct (statistics_stay_in_range "u1" u Scene.after_run Hu Hrange)
    as (stats & q & Hrun & Hbest & _).
  exists stats. auto.
Defined.


Lemma answer_without_json_object_falls_back_witness :
  Analysis.detailedFeedback
    (GeminiService.parseAnalysisResult Sample.runtime Scene.chinese_answer)
  = JString Scene.chinese_answer /\
  String.length Scene.chinese_answer = 600%nat /\
  Analysis.detailedFeedback
    (GeminiService.parseAnalysisResult Sample.runtime Scene.long_chinese_answer)
  = JString (String.concat EmptyString (repeat "中" 500)).
Proof.
  assert (Hno : forall text, ~ contains_json_object Sample.runtime text).
  { intros text (pre & obj & post & rest & v & _ & _ & Hparse).
    discriminate Hparse. }
  destruct (answer_without_json_object_falls_back Sample.runtime
              Scene.chinese_answer (Hno _)) as (Hresult & _ & Hwhole).
  destruct (answer_without_json_object_falls_back Sample.runtime
              Scene.long_chinese_answer (Hno _)) as (Hlong & _).
  rewrite Hresult, Hlong. cbn [Analysis.detailedFeedback].
  rewrite Hwhole by (apply Nat.leb_le; vm_compute; reflexivity).
  split; [reflexivity|]. split; [reflexivity|].
  vm_compute. reflexivity.
Defined.

Lemma nan_score_needs_non_numeric_field_witness :
  exists m fields v,
    GeminiService.match_braces Sample.worded_score_answer = Some m /\
    JSON_parse Sample.runtime_for_worded_score m = Some (JObject fields) /\
    assoc "overallScore" fields = Some v.
Proof.
  destruct (nan_score_needs_non_numeric_field Sample.runtime_for_worded_score
              Sample.worded_score_answer eq_refl)
    as (m & fields & v & Hm & Hp & Hv & _).
  exists m, fields, v. auto.
Defined.

Lemma blank_text_is_refused_witness :
  TtsController.vietnameseTTS (inr [73; 68; 51]) None
    (Some (utf8 0x3000 +:+ (utf8 0x0020 +:+ EmptyString)))
  = inl text_required.
Proof.
  apply (proj2 (blank_text_is_refused (inr [73; 68; 51]) None
                  (Some (utf8 0x3000 +:+ (utf8 0x0020 +:+ EmptyString))))).
  apply white_space_more; [repeat (first [left; reflexivity | right])|].
  apply white_space_more; [repeat (first [left; reflexivity | right])|].
  apply white_space_none.
Defined.

Lemma tts_errors_are_fixed_witness :
  ElevenLabsService.HttpException "Failed to generate speech from ElevenLabs" 500 = text_required \/
  (ElevenLabsService.HttpException "Failed to generate speech from ElevenLabs" 500
     = ElevenLabsService.HttpException "Failed to generate speech from ElevenLabs" 500 /\
   exists upstream, @inl thrown (list Z) (JsError "Request failed with status code 401")
                    = inl upstream) \/
  (ElevenLabsService.HttpException "Failed to generate speech from ElevenLabs" 500
     = ElevenLabsService.HttpException "TTS generation failed" 500 /\
   exists audio cause,
     @inl thrown (list Z) (JsError "Request failed with status code 401") = inr audio /\
     @None thrown = Some cause).
Proof.
  apply (tts_errors_are_fixed (inl (JsError "Request failed with status code 401"))
           None (Some "xin chao")).
  reflexivity.
Defined.

Lemma spoken_text_is_sent_witness :
  exists reply,
    TtsController.vietnameseTTS (inr [73; 68; 51]) None (Some " xin chao ") = inr reply /\
    TtsController.body reply = [73; 68; 51] /\
    In ("Content-Type", "audio/mpeg") (TtsController.headers reply).
Proof.
  eexists. split; [reflexivity|].
  destruct (spoken_text_is_sent (inr [73; 68; 51]) None (Some " xin chao ") _ eq_refl)
    as (Hpost & _ & _ & Hheader).
  split; [reflexivity|exact Hheader].
Defined.
